(** * PowerProfiler: a model of [src/power_profiler.py]

    The Python class [PowerProfiler] drives a PPK2 instrument: a background
    thread polls the driver and appends samples to [current_measurements]
    while the reentrant lock [measure_lock] is free; the controller thread
    starts and stops measurement windows and reads aggregates.

    The embedding is shallow.  The object is a record of its attributes, each
    method is a function in a small state-and-exception monad (a raised
    exception keeps the attribute updates made before it, as in Python), and
    the two threads are interleaved by a step function driven by a schedule.
    Three fields of the record are not attributes of the object: [bg] and
    [ctl] hold the program points of the two threads, and [log] records the
    effects the code performs, the latest first. *)

From Stdlib Require Import ZArith QArith Qabs List String Bool Lia Floats.
From Stdlib Require Import Strings.Byte.
Import ListNotations.

Set Implicit Arguments.
Set Warnings "-inexact-float".

(** ** Python values used by the module *)

(** The exceptions the module can raise.  [DriverError] stands for whatever
    the serial layer of [ppk2_api] raises. *)
Inductive exn : Type :=
| TypeError
| ValueError
| AttributeError
| RuntimeError
| Exception (msg : string)
| DriverError (msg : string).

(** The result of evaluating a Python call. *)
Inductive outcome (A : Type) : Type :=
| Return (a : A)
| Raise (e : exn).
Arguments Return {A} a.
Arguments Raise {A} e.

(** Numbers.  Samples are Python [int]s, modelled by [Z].  Every value that
    the aggregates return goes through a true division [/], which yields a
    Python [float].  The operations on these are kept abstract in a class so
    that the same definitions run on exact rationals and on IEEE binary64;
    [of_int] is the implicit conversion of an [int] operand, and [a / b] on
    two [int]s is the division of their conversions (what CPython computes
    for operands below [2^53]). *)
Class PyNumber (F : Type) : Type := {
  of_int : Z -> F;
  num_sub : F -> F -> F;
  num_mul : F -> F -> F;
  num_div : F -> F -> F
}.

(** Exact arithmetic. *)
#[export] Instance PyNumber_Q : PyNumber Q := {
  of_int := inject_Z;
  num_sub := Qminus;
  num_mul := Qmult;
  num_div := Qdiv
}.

(** IEEE 754 binary64, the representation of a CPython [float].  The
    conversion rounds to nearest even; it is exact below [2^53]. *)
Definition float_of_int (z : Z) : float :=
  SF2Prim (binary_normalize 53 1024 z 0 false).

#[export] Instance PyNumber_float : PyNumber float := {
  of_int := float_of_int;
  num_sub := PrimFloat.sub;
  num_mul := PrimFloat.mul;
  num_div := PrimFloat.div
}.

(** [sum(l)], [len(l)], [min(l)] and [max(l)] on a list of [int]s.  The last
    two raise [ValueError] on an empty list: [None] here. *)
Definition py_sum (l : list Z) : Z := fold_left Z.add l 0%Z.

Definition py_len (l : list Z) : Z := Z.of_nat (List.length l).

Definition py_min (l : list Z) : option Z :=
  match l with
  | [] => None
  | x :: r => Some (fold_left Z.min r x)
  end.

Definition py_max (l : list Z) : option Z :=
  match l with
  | [] => None
  | x :: r => Some (fold_left Z.max r x)
  end.

(** Truth value of an optional string ([None] and [""] are false). *)
Definition truthy (p : option string) : bool :=
  match p with
  | Some s => negb (String.eqb s EmptyString)
  | None => false
  end.

(** ** The driver and the log of effects *)

(** Commands sent to the [PPK2_API] object. *)
Inductive command : Type :=
| CmdGetModifiers
| CmdUseSourceMeter
| CmdUseAmpereMeter
| CmdSetSourceVoltage (mV : Z)
| CmdStartMeasuring
| CmdStopMeasuring
| CmdToggleDUTPower (on : bool)
| CmdGetData.

(** Effects, as the log records them.  The number carried by a lock event
    is the recursion level of [measure_lock] after the event: [EvRelease 0]
    is the release that frees the gate. *)
Inductive event : Type :=
| EvAcquire (level : nat)
| EvRelease (level : nat)
| EvResetBuffer
| EvMeasuring (b : bool)
| EvDriver (c : command)
| EvStartTime
| EvStopTime
| EvAppend (samples : list Z)
| EvCsvHeader
| EvCsvRows (samples : list Z)
| EvStopSet
| EvThreadStart
| EvThreadJoined
| EvDelPpk2.

(** The attribute [self.ppk2]: removed by [del], [None], or a driver object
    opened on a port. *)
Inductive ppk2_attr : Type :=
| Ppk2Deleted
| Ppk2None
| Ppk2Obj (port : string).

(** Program points of the thread running [measurement_loop]. *)
Inductive bg_pc : Type :=
| BgCheck      (* at the [while] condition *)
| BgAcquire    (* entering [with self.measure_lock] *)
| BgSleep      (* in [time.sleep(self.fetch_interval)] *)
| BgExit.      (* the loop has ended *)

(** Program points of the controller thread: between calls, or inside
    [delete_power_profiler] waiting in [measurement_thread.join()]. *)
Inductive ctl_pc : Type :=
| CtlReady
| CtlJoining.

(** ** The object and the monad of its methods *)

Section Profiler.

Context {F : Type} {num : PyNumber F}.

(** The attributes of a constructed [PowerProfiler].  [measure_lock] is the
    recursion level at which the controller thread holds the [RLock] (0:
    the lock is free); [stop] is the flag of the [Event]; and
    [measurement_thread] tells whether the attribute is a [Thread] rather
    than [None]. *)
Record PowerProfiler : Type := mkPowerProfiler {
  measuring : bool;
  measure_lock : nat;
  stop : bool;
  ppk2 : ppk2_attr;
  source_voltage_mV : Z;
  current_measurements : list Z;
  measurement_start_time : option F;
  measurement_stop_time : option F;
  measurement_thread : bool;
  filename : option string;
  bg : bg_pc;
  ctl : ctl_pc;
  log : list event
}.

Definition set_measuring (v : bool) (s : PowerProfiler) : PowerProfiler :=
  mkPowerProfiler v (measure_lock s) (stop s) (ppk2 s) (source_voltage_mV s)
    (current_measurements s) (measurement_start_time s)
    (measurement_stop_time s) (measurement_thread s) (filename s)
    (bg s) (ctl s) (log s).

Definition set_measure_lock (v : nat) (s : PowerProfiler) : PowerProfiler :=
  mkPowerProfiler (measuring s) v (stop s) (ppk2 s) (source_voltage_mV s)
    (current_measurements s) (measurement_start_time s)
    (measurement_stop_time s) (measurement_thread s) (filename s)
    (bg s) (ctl s) (log s).

Definition set_stop (v : bool) (s : PowerProfiler) : PowerProfiler :=
  mkPowerProfiler (measuring s) (measure_lock s) v (ppk2 s)
    (source_voltage_mV s) (current_measurements s)
    (measurement_start_time s) (measurement_stop_time s)
    (measurement_thread s) (filename s) (bg s) (ctl s) (log s).

Definition set_ppk2 (v : ppk2_attr) (s : PowerProfiler) : PowerProfiler :=
  mkPowerProfiler (measuring s) (measure_lock s) (stop s) v
    (source_voltage_mV s) (current_measurements s)
    (measurement_start_time s) (measurement_stop_time s)
    (measurement_thread s) (filename s) (bg s) (ctl s) (log s).

Definition set_current_measurements (v : list Z) (s : PowerProfiler)
  : PowerProfiler :=
  mkPowerProfiler (measuring s) (measure_lock s) (stop s) (ppk2 s)
    (source_voltage_mV s) v (measurement_start_time s)
    (measurement_stop_time s) (measurement_thread s) (filename s)
    (bg s) (ctl s) (log s).

Definition set_measurement_start_time (v : option F) (s : PowerProfiler)
  : PowerProfiler :=
  mkPowerProfiler (measuring s) (measure_lock s) (stop s) (ppk2 s)
    (source_voltage_mV s) (current_measurements s) v
    (measurement_stop_time s) (measurement_thread s) (filename s)
    (bg s) (ctl s) (log s).

Definition set_measurement_stop_time (v : option F) (s : PowerProfiler)
  : PowerProfiler :=
  mkPowerProfiler (measuring s) (measure_lock s) (stop s) (ppk2 s)
    (source_voltage_mV s) (current_measurements s)
    (measurement_start_time s) v (measurement_thread s) (filename s)
    (bg s) (ctl s) (log s).

Definition set_measurement_thread (v : bool) (s : PowerProfiler)
  : PowerProfiler :=
  mkPowerProfiler (measuring s) (measure_lock s) (stop s) (ppk2 s)
    (source_voltage_mV s) (current_measurements s)
    (measurement_start_time s) (measurement_stop_time s) v (filename s)
    (bg s) (ctl s) (log s).

Definition set_bg (v : bg_pc) (s : PowerProfiler) : PowerProfiler :=
  mkPowerProfiler (measuring s) (measure_lock s) (stop s) (ppk2 s)
    (source_voltage_mV s) (current_measurements s)
    (measurement_start_time s) (measurement_stop_time s)
    (measurement_thread s) (filename s) v (ctl s) (log s).

Definition set_ctl (v : ctl_pc) (s : PowerProfiler) : PowerProfiler :=
  mkPowerProfiler (measuring s) (measure_lock s) (stop s) (ppk2 s)
    (source_voltage_mV s) (current_measurements s)
    (measurement_start_time s) (measurement_stop_time s)
    (measurement_thread s) (filename s) (bg s) v (log s).

Definition set_log (v : list event) (s : PowerProfiler) : PowerProfiler :=
  mkPowerProfiler (measuring s) (measure_lock s) (stop s) (ppk2 s)
    (source_voltage_mV s) (current_measurements s)
    (measurement_start_time s) (measurement_stop_time s)
    (measurement_thread s) (filename s) (bg s) (ctl s) v.

(** A method body: it runs on the object and either returns or raises;
    the object it leaves behind is kept in both cases. *)
Definition M (A : Type) : Type := PowerProfiler -> outcome A * PowerProfiler.

Definition ret {A : Type} (a : A) : M A := fun s => (Return a, s).

Definition raise {A : Type} (e : exn) : M A := fun s => (Raise e, s).

Definition bind {A B : Type} (m : M A) (k : A -> M B) : M B :=
  fun s =>
    match m s with
    | (Return a, s') => k a s'
    | (Raise e, s') => (Raise e, s')
    end.

Definition get : M PowerProfiler := fun s => (Return s, s).

Definition modify (f : PowerProfiler -> PowerProfiler) : M unit :=
  fun s => (Return tt, f s).

Definition emit (e : event) : M unit :=
  modify (fun s => set_log (e :: log s) s).

End Profiler.

Arguments PowerProfiler F : clear implicits.
Arguments M F A : clear implicits.

Declare Scope py_scope.
Delimit Scope py_scope with py.
Notation "x <- m ;; k" := (bind m (fun x => k))
  (at level 61, m at next level, right associativity) : py_scope.
Notation "m ;; k" := (bind m (fun _ => k))
  (at level 61, right associativity) : py_scope.

(** ** The methods *)

Section Methods.

Context {F : Type} {num : PyNumber F}.

(** [PPK2_API.get_samples]: the decoder of the external driver library,
    from raw bytes to samples in microamperes. *)
Variable get_samples : list byte -> list Z.

Local Open Scope py_scope.
Local Abbreviation M := (M F).

(** [self.measure_lock.acquire()].  The lock is reentrant: each
    acquisition by the thread that holds it adds one level.  Between two
    steps of the system only the controller holds levels; the background
    thread takes and gives back its own inside one step. *)
Definition acquire : M unit :=
  s <- get ;;
  modify (set_measure_lock (S (measure_lock s))) ;;
  emit (EvAcquire (S (measure_lock s))).

(** [self.measure_lock.release()]: one level down; releasing a lock that
    is not held raises [RuntimeError]. *)
Definition release : M unit :=
  s <- get ;;
  match measure_lock s with
  | O => raise RuntimeError
  | S n => modify (set_measure_lock n) ;; emit (EvRelease n)
  end.

(** [with self.measure_lock: body]: the lock is released when the body
    returns and when it raises. *)
Definition with_lock {A : Type} (body : M A) : M A :=
  fun s =>
    match acquire s with
    | (Raise e, s1) => (Raise e, s1)
    | (Return _, s1) =>
        let (r, s2) := body s1 in
        match release s2 with
        | (Return _, s3) => (r, s3)
        | (Raise e, s3) => (Raise e, s3)
        end
    end.

(** A method call on [self.ppk2]: an [AttributeError] when the attribute
    is [None] or has been deleted. *)
Definition driver (c : command) : M unit :=
  s <- get ;;
  match ppk2 s with
  | Ppk2Obj _ => emit (EvDriver c)
  | Ppk2None => raise AttributeError
  | Ppk2Deleted => raise AttributeError
  end.

(** The test [if self.ppk2:]. *)
Definition ppk2_truth : M bool :=
  s <- get ;;
  match ppk2 s with
  | Ppk2Obj _ => ret true
  | Ppk2None => ret false
  | Ppk2Deleted => raise AttributeError
  end.

(** [write_csv_rows], lines 90-96: one row per sample, appended. *)
Definition write_csv_rows (samples : list Z) : M unit :=
  emit (EvCsvRows samples).

(** [enable_power], lines 128-134. *)
Definition enable_power : M bool :=
  with_lock (
    b <- ppk2_truth ;;
    if b then driver (CmdToggleDUTPower true) ;; ret true
    else ret false).

(** [disable_power], lines 136-142. *)
Definition disable_power : M bool :=
  with_lock (
    b <- ppk2_truth ;;
    if b then driver (CmdToggleDUTPower false) ;; ret true
    else ret false).

(** [use_source_meter], lines 144-150. *)
Definition use_source_meter : M bool :=
  with_lock (
    b <- ppk2_truth ;;
    if b then driver CmdUseSourceMeter ;; ret true
    else ret false).

(** [use_ampere_meter], lines 152-158. *)
Definition use_ampere_meter : M bool :=
  with_lock (
    b <- ppk2_truth ;;
    if b then driver CmdUseAmpereMeter ;; ret true
    else ret false).

(** The body of the loop of [measurement_loop], lines 163-168: under the
    lock, poll the driver and append the decoded samples when the data
    read is not [b'']. *)
Definition poll (read_data : list byte) : M unit :=
  with_lock (
    driver CmdGetData ;;
    match read_data with
    | [] => ret tt
    | _ :: _ =>
        let samples := get_samples read_data in
        s <- get ;;
        modify (set_current_measurements
                  (current_measurements s ++ samples)) ;;
        emit (EvAppend samples)
    end).

(** [start_measuring], lines 180-188.  [now] is what [time.time()]
    returns at line 188. *)
Definition start_measuring (now : F) : M unit :=
  with_lock (
    s <- get ;;
    if negb (measuring s) then
      modify (set_current_measurements []) ;; emit EvResetBuffer ;;
      release ;;
      modify (set_measuring true) ;; emit (EvMeasuring true) ;;
      driver CmdStartMeasuring ;;
      modify (set_measurement_start_time (Some now)) ;; emit EvStartTime
    else ret tt).

(** [stop_measuring], lines 190-200.  [now] is what [time.time()]
    returns at line 195. *)
Definition stop_measuring (now : F) : M unit :=
  with_lock (
    modify (set_measuring false) ;; emit (EvMeasuring false) ;;
    acquire ;;
    modify (set_measurement_stop_time (Some now)) ;; emit EvStopTime ;;
    driver CmdStopMeasuring ;;
    s <- get ;;
    match filename s with
    | Some _ => write_csv_rows (current_measurements s)
    | None => ret tt
    end).

(** [get_min_current_mA], lines 202-204. *)
Definition get_min_current_mA : M F :=
  with_lock (
    s <- get ;;
    match py_min (current_measurements s) with
    | Some m => ret (num_div (of_int m) (of_int 1000))
    | None => raise ValueError
    end).

(** [get_max_current_mA], lines 206-208. *)
Definition get_max_current_mA : M F :=
  with_lock (
    s <- get ;;
    match py_max (current_measurements s) with
    | Some m => ret (num_div (of_int m) (of_int 1000))
    | None => raise ValueError
    end).

(** [get_num_measurements], lines 210-212. *)
Definition get_num_measurements : M Z :=
  with_lock (
    s <- get ;;
    ret (py_len (current_measurements s))).

(** [get_average_current_mA], lines 214-221.  The empty case returns the
    [int] 0. *)
Definition get_average_current_mA : M F :=
  with_lock (
    s <- get ;;
    if (py_len (current_measurements s) =? 0)%Z then ret (of_int 0)
    else
      let average_current_mA :=
        num_div (num_div (of_int (py_sum (current_measurements s)))
                         (of_int (py_len (current_measurements s))))
                (of_int 1000) in
      ret average_current_mA).

(** [get_measurement_duration_s], lines 239-242: no lock is taken; the
    subtraction raises [TypeError] when an operand is [None]. *)
Definition get_measurement_duration_s : M F :=
  s <- get ;;
  match measurement_stop_time s, measurement_start_time s with
  | Some t1, Some t0 => ret (num_sub t1 t0)
  | _, _ => raise TypeError
  end.

(** The local [average_power_mW] of line 227. *)
Definition average_power_mW (source_voltage : Z) (average_current_mA : F)
  : F :=
  num_mul (num_div (of_int source_voltage) (of_int 1000))
          average_current_mA.

(** [get_average_power_consumption_mWh], lines 223-230. *)
Definition get_average_power_consumption_mWh : M F :=
  with_lock (
    average_current_mA <- get_average_current_mA ;;
    s <- get ;;
    let power_mW :=
      average_power_mW (source_voltage_mV s) average_current_mA in
    duration_s <- get_measurement_duration_s ;;
    let measurement_duration_h := num_div duration_s (of_int 3600) in
    let average_consumption_mWh := num_mul power_mW measurement_duration_h in
    ret average_consumption_mWh).

(** [get_average_charge_mC], lines 232-237. *)
Definition get_average_charge_mC : M F :=
  with_lock (
    average_current_mA <- get_average_current_mA ;;
    measurement_duration_s <- get_measurement_duration_s ;;
    ret (num_mul average_current_mA measurement_duration_s)).

End Methods.

(** ** Construction *)

(** What the constructor sees of the outside world: the ports
    [PPK2_API.list_devices()] reports; whether [PPK2_API(port)] opens the
    port ([None]) or raises; what [get_modifiers()] does on the opened
    port: it raises, or returns a value of which only the truth matters;
    whether the mode command ([use_source_meter()] for [true],
    [use_ampere_meter()] for [false]), [set_source_voltage()] and
    [Thread.start()] return ([None]) or raise; and whether the file can be
    created and its header row written (lines 82-88). *)
Record Ppk2World : Type := {
  list_devices : list string;
  open_port : string -> option exn;
  get_modifiers : string -> outcome bool;
  set_mode : string -> bool -> option exn;
  set_source_voltage : string -> Z -> option exn;
  start_thread : option exn;
  create_file : string -> option exn
}.

Definition obind {A B : Type} (r : outcome A) (k : A -> outcome B)
  : outcome B :=
  match r with
  | Return a => k a
  | Raise e => Raise e
  end.

(** The call [logger(...)] of line 125: [logger] is a [logging.Logger],
    which is not callable. *)
Definition call_logger : outcome unit := Raise TypeError.

(** [discover_port], lines 117-126. *)
Definition discover_port (w : Ppk2World) : outcome (option string) :=
  match list_devices w with
  | [ppk2_port] => Return (Some ppk2_port)
  | _ => obind call_logger (fun _ => Return None)
  end.

(** [PPK2_API(serial_port)], for a port whose truth was tested. *)
Definition new_ppk2 (w : Ppk2World) (serial_port : option string)
  : outcome ppk2_attr :=
  match serial_port with
  | Some p =>
      match open_port w p with
      | None => Return (Ppk2Obj p)
      | Some e => Raise e
      end
  | None => Return Ppk2None
  end.

(** The object under construction at the moment [__init__] raises, as far
    as it matters afterwards: what [self.ppk2] is bound to, and whether the
    thread has been started.  The lock is held once from line 26 on. *)
Record half_built : Type := {
  hb_ppk2 : ppk2_attr;
  hb_thread_started : bool
}.

Section Construction.

Context {F : Type}.

(** How [__init__] ends: it returns, and the caller has the object, or it
    raises, and the object under construction is left as it stands. *)
Inductive construction : Type :=
| Built (self : PowerProfiler F)
| Broken (e : exn) (self : half_built).

(** The attributes at the end of [__init__], lines 56-88, for the driver
    of the port [p]. *)
Definition new_object (p : string) (source_voltage : Z)
    (file : option string) (source_meter : bool) : PowerProfiler F :=
  {| measuring := false;
     measure_lock := 1;
     stop := false;
     ppk2 := Ppk2Obj p;
     source_voltage_mV := source_voltage;
     current_measurements := [];
     measurement_start_time := None;
     measurement_stop_time := None;
     measurement_thread := true;
     filename := file;
     bg := BgCheck;
     ctl := CtlReady;
     log :=
       match file with Some _ => [EvCsvHeader] | None => [] end
       ++ [EvThreadStart;
           EvDriver (CmdSetSourceVoltage source_voltage);
           EvDriver (if source_meter then CmdUseSourceMeter
                     else CmdUseAmpereMeter);
           EvDriver CmdGetModifiers; EvAcquire 1]
  |}.

(** [__init__], lines 21-88, run on the object under construction. *)
Definition init_self (w : Ppk2World) (serial_port : option string)
    (source_voltage : Z) (file : option string) (source_meter : bool)
  : construction :=
  (* lines 37-43: [self.ppk2] stays [None] unless a port is opened *)
  match
    (if truthy serial_port then new_ppk2 w serial_port
     else
       obind (discover_port w) (fun discovered =>
         if truthy discovered then new_ppk2 w discovered
         else Return Ppk2None))
  with
  | Raise e => Broken e {| hb_ppk2 := Ppk2None; hb_thread_started := false |}
  | Return (Ppk2Obj p) =>
      let opened := {| hb_ppk2 := Ppk2Obj p; hb_thread_started := false |} in
      (* lines 45-51: an exception of [get_modifiers] is raised again, with
         [self.ppk2] as it is *)
      match get_modifiers w p with
      | Raise e => Broken e opened
      | Return modifiers =>
          if negb modifiers then
            (* lines 53-55: [self.ppk2 = None], then the raise *)
            Broken (Exception "Error when initing PowerProfiler")
              {| hb_ppk2 := Ppk2None; hb_thread_started := false |}
          else
            (* lines 57-60 *)
            match set_mode w p source_meter with
            | Some e => Broken e opened
            | None =>
            (* line 64 *)
            match set_source_voltage w p source_voltage with
            | Some e => Broken e opened
            | None =>
            (* lines 77-78 *)
            match start_thread w with
            | Some e => Broken e opened
            | None =>
            (* lines 81-88: the thread is running by now *)
            match
              match file with
              | Some name => create_file w name
              | None => None
              end
            with
            | Some e =>
                Broken e {| hb_ppk2 := Ppk2Obj p; hb_thread_started := true |}
            | None =>
                Built (new_object p source_voltage file source_meter)
            end end end end
      end
  | Return dev =>
      (* line 46 on [None]: the [AttributeError] is raised again *)
      Broken AttributeError {| hb_ppk2 := dev; hb_thread_started := false |}
  end.

(** [PowerProfiler(...)]: the caller gets the object, or the exception
    and no object. *)
Definition init (w : Ppk2World) (serial_port : option string)
    (source_voltage : Z) (file : option string) (source_meter : bool)
  : outcome (PowerProfiler F) :=
  match init_self w serial_port source_voltage file source_meter with
  | Built self => Return self
  | Broken e _ => Raise e
  end.

(** The port of the driver that [self.ppk2] refers to when [__init__]
    ends, by a return or by a raise. *)
Definition device_handle (c : construction) : option string :=
  match
    match c with
    | Built self => ppk2 self
    | Broken _ self => hb_ppk2 self
    end
  with
  | Ppk2Obj port => Some port
  | _ => None
  end.

End Construction.

Arguments construction F : clear implicits.

(** ** Teardown, the background thread and the interleaving *)

Section System.

Context {F : Type} {num : PyNumber F}.
Variable get_samples : list byte -> list Z.

Local Open Scope py_scope.
Local Abbreviation M := (M F).

(** [delete_power_profiler], lines 100-101: up to the wait for the
    thread.  [now] is the clock read by [stop_measuring]. *)
Definition delete_enter (now : F) : M unit :=
  modify (set_stop true) ;; emit EvStopSet ;;
  stop_measuring now.

(** [delete_power_profiler], lines 107-108: [join()] has returned. *)
Definition delete_joined : M unit :=
  emit EvThreadJoined ;;
  modify (set_measurement_thread false).

(** [delete_power_profiler], lines 110-113. *)
Definition delete_leave : M unit :=
  b <- ppk2_truth ;;
  if b then
    disable_power ;;
    modify (set_ppk2 Ppk2Deleted) ;; emit EvDelPpk2
  else ret tt.

(** The calls the controller thread makes on the object. *)
Inductive call : Type :=
| StartMeasuring (now : F)
| StopMeasuring (now : F)
| GetMinCurrent
| GetMaxCurrent
| GetNumMeasurements
| GetAverageCurrent
| GetAveragePowerConsumption
| GetAverageCharge
| GetMeasurementDuration
| EnablePower
| DisablePower
| UseSourceMeter
| UseAmpereMeter
| DeletePowerProfiler (now : F).

Definition void {A : Type} (m : M A) : M unit := _ <- m ;; ret tt.

(** The part of a call that runs without waiting for the other thread:
    all of it, except for [delete_power_profiler], which runs up to
    [join()]. *)
Definition run_call (c : call) : M unit :=
  match c with
  | StartMeasuring now => start_measuring now
  | StopMeasuring now => stop_measuring now
  | GetMinCurrent => void get_min_current_mA
  | GetMaxCurrent => void get_max_current_mA
  | GetNumMeasurements => void get_num_measurements
  | GetAverageCurrent => void get_average_current_mA
  | GetAveragePowerConsumption => void get_average_power_consumption_mWh
  | GetAverageCharge => void get_average_charge_mC
  | GetMeasurementDuration => void get_measurement_duration_s
  | EnablePower => void enable_power
  | DisablePower => void disable_power
  | UseSourceMeter => void use_source_meter
  | UseAmpereMeter => void use_ampere_meter
  | DeletePowerProfiler now => delete_enter now
  end.

(** One step of the thread running [measurement_loop], lines 162-169.
    The thread cannot enter the [with] block while the controller holds
    the lock: no step.  The block itself is one step, since every access
    of the controller to the shared attributes is under the lock too.  An
    exception ends the thread. *)
Definition measurement_loop_step (read_data : list byte)
    (s : PowerProfiler F) : option (PowerProfiler F) :=
  match bg s with
  | BgCheck => Some (set_bg (if stop s then BgExit else BgAcquire) s)
  | BgAcquire =>
      match measure_lock s with
      | O =>
          match poll get_samples read_data s with
          | (Return _, s') => Some (set_bg BgSleep s')
          | (Raise _, s') => Some (set_bg BgExit s')
          end
      | S _ => None
      end
  | BgSleep => Some (set_bg BgCheck s)
  | BgExit => None
  end.

(** What the scheduler picks next: a call of the controller, a step of
    the background thread with the bytes the driver hands out, or the
    return of [join()]. *)
Inductive label : Type :=
| Controller (c : call)
| Background (read_data : list byte)
| JoinReturns.

(** One step of the system; [None] when the step is not enabled. *)
Definition sys_step (l : label) (s : PowerProfiler F)
  : option (PowerProfiler F) :=
  match l with
  | Controller c =>
      match ctl s with
      | CtlJoining => None
      | CtlReady =>
          let (r, s') := run_call c s in
          match c, r with
          | DeletePowerProfiler _, Return _ =>
              if measurement_thread s' then Some (set_ctl CtlJoining s')
              else Some (snd (delete_leave s'))
          | _, _ => Some s'
          end
      end
  | Background read_data => measurement_loop_step read_data s
  | JoinReturns =>
      match ctl s, bg s with
      | CtlJoining, BgExit =>
          Some (snd ((delete_joined ;; delete_leave) (set_ctl CtlReady s)))
      | _, _ => None
      end
  end.

(** A schedule, run from the left. *)
Fixpoint exec (ls : list label) (s : PowerProfiler F)
  : option (PowerProfiler F) :=
  match ls with
  | [] => Some s
  | l :: ls' =>
      match sys_step l s with
      | Some s' => exec ls' s'
      | None => None
      end
  end.

End System.

Arguments call F : clear implicits.
Arguments label F : clear implicits.

(** * Definitions used to state the properties *)

(** ** Events and their order *)

(** Equality of events is decidable. *)
Definition event_eq_dec (a b : event) : {a = b} + {a <> b}.
Proof. repeat decide equality. Defined.

(** The events of [p] occur in [l], in the order of [p]. *)
Fixpoint in_order (p l : list event) : bool :=
  match p, l with
  | [], _ => true
  | _ :: _, [] => false
  | a :: p', b :: l' =>
      if event_eq_dec a b then in_order p' l' else in_order p l'
  end.

(** The order in which the specification lists the effects of a
    [start_measuring] that starts a window: buffer reset, start time,
    hardware start, and then the release that frees the gate. *)
Definition spec_start_order : list event :=
  [EvResetBuffer; EvStartTime; EvDriver CmdStartMeasuring; EvRelease 0].

Definition is_append (e : event) : bool :=
  match e with
  | EvAppend _ => true
  | _ => false
  end.

(** ** Construction *)

(** The port the constructor settles on: the one given, or else the only
    one discovered. *)
Definition resolved_port (w : Ppk2World) (serial_port : option string)
  : option string :=
  if truthy serial_port then serial_port
  else
    match list_devices w with
    | [p] => if truthy (Some p) then Some p else None
    | _ => None
    end.

(** No port is given and discovery does not find exactly one device. *)
Definition discovery_fails (w : Ppk2World) (serial_port : option string)
  : Prop :=
  truthy serial_port = false /\ List.length (list_devices w) <> 1%nat.

(** [get_modifiers] on the port settled on raises or returns nothing
    true. *)
Definition verification_fails (w : Ppk2World)
    (serial_port : option string) : Prop :=
  exists p : string,
    resolved_port w serial_port = Some p
    /\ get_modifiers w p <> Return true.

(** The rest of [__init__] runs through on the port [p]: the mode and
    the voltage commands return, the thread starts, and the file, when one
    is named, is created. *)
Definition set_up_returns (w : Ppk2World) (p : string) (source_voltage : Z)
    (file : option string) (source_meter : bool) : Prop :=
  set_mode w p source_meter = None
  /\ set_source_voltage w p source_voltage = None
  /\ start_thread w = None
  /\ match file with
     | Some name => create_file w name = None
     | None => True
     end.

Section Properties.

Context {F : Type} {num : PyNumber F}.

(** The average as the specification words it: the sum over the count,
    over 1000, and 0 for no sample. *)
Definition spec_average_current_mA (S : list Z) : F :=
  match S with
  | [] => of_int 0
  | _ :: _ =>
      num_div (num_div (of_int (py_sum S)) (of_int (py_len S)))
              (of_int 1000)
  end.

(** A read under the lock leaves the object as it was, up to the two lock
    events. *)
Definition after_locked_read (s : PowerProfiler F) : PowerProfiler F :=
  set_log (EvRelease (measure_lock s)
           :: EvAcquire (S (measure_lock s)) :: log s) s.

(** The log after a read that takes the lock twice, nested. *)
Definition after_nested_read (s : PowerProfiler F) : PowerProfiler F :=
  set_log (EvRelease (measure_lock s)
           :: EvRelease (S (measure_lock s))
           :: EvAcquire (S (S (measure_lock s)))
           :: EvAcquire (S (measure_lock s)) :: log s) s.

(** What a call logged, in the order of the effects: the part of the log
    after it that was not in the log before it, the earliest first. *)
Definition emitted (s s' : PowerProfiler F) : list event :=
  rev (firstn (List.length (log s') - List.length (log s)) (log s')).

(** The steps other than a call of [start_measuring]. *)
Definition no_start (l : label F) : bool :=
  match l with
  | Controller (StartMeasuring _) => false
  | _ => true
  end.

(** The number of appends to the buffer that the log records. *)
Definition appended (s : PowerProfiler F) : nat :=
  List.length (filter is_append (log s)).

(** Before the first [start_measuring]: not measuring, the gate held by
    the controller, nothing in the buffer, and no append logged. *)
Definition idle_inv (s : PowerProfiler F) : Prop :=
  measuring s = false
  /\ (1 <= measure_lock s)%nat
  /\ current_measurements s = []
  /\ appended s = 0%nat.

(** A step that leaves the flag, the gate and the buffer alone and logs no
    append. *)
Definition unchanged_gate (s s' : PowerProfiler F) : Prop :=
  appended s' = appended s
  /\ measuring s' = measuring s
  /\ measure_lock s' = measure_lock s
  /\ current_measurements s' = current_measurements s.

(** What a call of the controller does to the flag, the gate and the
    buffer, whether it returns or raises: [start_measuring] on an object
    that is not measuring empties the buffer and gives back one level;
    [stop_measuring], also at the start of [delete_power_profiler], adds
    one level; every other call is neutral.  No call logs an append. *)
Definition call_effect (c : call F) (s s' : PowerProfiler F) : Prop :=
  appended s' = appended s
  /\ match c with
     | StartMeasuring _ =>
         measuring s' = true
         /\ (if measuring s
             then measure_lock s' = measure_lock s
                  /\ current_measurements s' = current_measurements s
             else measure_lock s' = pred (measure_lock s)
                  /\ current_measurements s' = [])
     | StopMeasuring _ | DeletePowerProfiler _ =>
         measuring s' = false
         /\ measure_lock s' = S (measure_lock s)
         /\ current_measurements s' = current_measurements s
     | _ =>
         measuring s' = measuring s
         /\ measure_lock s' = measure_lock s
         /\ current_measurements s' = current_measurements s
     end.

(** The buffer is empty and the controller holds the gate at a level that
    the next [start_measuring] cannot bring to zero: at least once while
    measuring, at least twice while not. *)
Definition wedged (s : PowerProfiler F) : Prop :=
  current_measurements s = []
  /\ (if measuring s then 1 <= measure_lock s else 2 <= measure_lock s)%nat.

(** The calls of [stop_measuring]. *)
Definition is_stop (l : label F) : bool :=
  match l with
  | Controller (StopMeasuring _) => true
  | _ => false
  end.

(** The steps that add a level to the controller's hold on the gate: a
    [stop_measuring], called directly or at the start of
    [delete_power_profiler]. *)
Definition adds_hold (l : label F) : bool :=
  match l with
  | Controller (StopMeasuring _) | Controller (DeletePowerProfiler _) => true
  | _ => false
  end.

End Properties.

(** ** The scenario of three samples over two seconds *)

(** The object of the scenario: samples 1000, 2000 and 3000 microamperes,
    3300 mV, and a window whose two time stamps differ by 2 seconds
    ([two] says so in the arithmetic at hand). *)
Definition in_scenario {F : Type} {num : PyNumber F} (two : F -> Prop)
    (s : PowerProfiler F) : Prop :=
  current_measurements s = [1000; 2000; 3000]%Z
  /\ source_voltage_mV s = 3300%Z
  /\ exists t0 t1 : F,
       measurement_start_time s = Some t0
       /\ measurement_stop_time s = Some t1
       /\ two (num_sub t1 t0).

(** In exact arithmetic: 2 mA, 6.6 mW, 11/3000 mWh (0.003667 to six
    places) and 4 mC. *)
Definition scenario_results_exact (s : PowerProfiler Q) : Prop :=
  exists i e c : Q,
    fst (get_average_current_mA s) = Return i
    /\ fst (get_average_power_consumption_mWh s) = Return e
    /\ fst (get_average_charge_mC s) = Return c
    /\ i == 2
    /\ average_power_mW (source_voltage_mV s) i == 6.6
    /\ e == 11 # 3000
    /\ Qabs (e - 0.003667) < 0.000001
    /\ c == 4.

(** In binary64, as CPython computes: the floats 2.0, 6.6 and 4.0, and an
    energy within a millionth of 0.003667. *)
Definition scenario_results_binary64 (s : PowerProfiler float) : Prop :=
  exists e : float,
    fst (get_average_current_mA s) = Return 2%float
    /\ average_power_mW (source_voltage_mV s) 2%float = 6.6%float
    /\ fst (get_average_power_consumption_mWh s) = Return e
    /\ PrimFloat.ltb (PrimFloat.abs (PrimFloat.sub e 0.003667%float))
         0.000001%float = true
    /\ fst (get_average_charge_mC s) = Return 4%float.

(** ** A bench set-up, for concrete runs *)

Module Bench.

Local Open Scope string_scope.

(** One PPK2 on the bus; it opens and answers [get_modifiers]. *)
Definition world : Ppk2World :=
  {| list_devices := ["/dev/ttyACM0"];
     open_port := fun _ => None;
     get_modifiers := fun _ => Return true;
     set_mode := fun _ _ => None;
     set_source_voltage := fun _ _ => None;
     start_thread := None;
     create_file := fun _ => None |}.

(** A stand-in for the decoder: one sample per byte, in units of 1000. *)
Definition get_samples (read_data : list byte) : list Z :=
  map (fun b => (1000 * Z.of_N (Byte.to_N b))%Z) read_data.

(** The object right after [PowerProfiler()], with the defaults. *)
Definition idle (F : Type) : PowerProfiler F :=
  {| measuring := false;
     measure_lock := 1;
     stop := false;
     ppk2 := Ppk2Obj "/dev/ttyACM0";
     source_voltage_mV := 3300;
     current_measurements := [];
     measurement_start_time := None;
     measurement_stop_time := None;
     measurement_thread := true;
     filename := None;
     bg := BgCheck;
     ctl := CtlReady;
     log := [EvThreadStart; EvDriver (CmdSetSourceVoltage 3300);
             EvDriver CmdUseSourceMeter; EvDriver CmdGetModifiers;
             EvAcquire 1] |}.

(** The object after [start_measuring()] at time 10. *)
Definition sampling (F : Type) {num : PyNumber F} : PowerProfiler F :=
  snd (start_measuring (of_int 10) (idle F)).
Arguments sampling F {num}.

(** A window: start at 10, the thread reads three bytes, stop at 12. *)
Definition window (F : Type) {num : PyNumber F} : list (label F) :=
  [Controller (StartMeasuring (of_int 10));
   Background [];
   Background [x01; x02; x03];
   Controller (StopMeasuring (of_int 12))].
Arguments window F {num}.

(** Calls before any [start_measuring], with the thread arriving at its
    [with] statement first. *)
Definition probe (F : Type) {num : PyNumber F} : list (label F) :=
  [Background [x01];
   Controller GetNumMeasurements;
   Controller (StopMeasuring (of_int 5));
   Controller GetMinCurrent].
Arguments probe F {num}.

End Bench.

(** Two [stop_measuring] with a step of the thread and a read between
    them. *)
Definition stopping (F : Type) {num : PyNumber F} : list (label F) :=
  [Controller (StopMeasuring (of_int 11)); Background [];
   Controller GetNumMeasurements; Controller (StopMeasuring (of_int 12))].
Arguments stopping F {num}.

(** The bench, measuring, takes the calls of [stopping] and one
    [start_measuring]; then the controller reads. *)
Definition wedging (F : Type) {num : PyNumber F} : list (label F) :=
  stopping F
  ++ Controller (StartMeasuring (of_int 13))
     :: [Controller GetNumMeasurements; Controller GetAverageCurrent].
Arguments wedging F {num}.

Definition wedged_bench (F : Type) {num : PyNumber F} : PowerProfiler F :=
  match exec Bench.get_samples (wedging F) (Bench.sampling F) with
  | Some s => s
  | None => Bench.idle F
  end.
Arguments wedged_bench F {num}.

(** The bench after the calls of [Bench.probe]. *)
Definition probed (F : Type) {num : PyNumber F} : PowerProfiler F :=
  match exec Bench.get_samples (Bench.probe F) (Bench.idle F) with
  | Some s => s
  | None => Bench.idle F
  end.
Arguments probed F {num}.

(** The bench after its window: 1000, 2000 and 3000 microamperes between
    the clock readings 10 and 12. *)
Definition measured (F : Type) {num : PyNumber F} : PowerProfiler F :=
  match exec Bench.get_samples (Bench.window F) (Bench.idle F) with
  | Some s => s
  | None => Bench.idle F
  end.
Arguments measured F {num}.

(** ** Set-ups on which the construction fails *)

Module Faulty.

Local Open Scope string_scope.

(** Two instruments on the bus. *)
Definition crowded : Ppk2World :=
  {| list_devices := ["/dev/ttyACM0"; "/dev/ttyACM1"];
     open_port := fun _ => None;
     get_modifiers := fun _ => Return true;
     set_mode := fun _ _ => None;
     set_source_voltage := fun _ _ => None;
     start_thread := None;
     create_file := fun _ => None |}.

(** A port that opens, on which reading the modifiers raises. *)
Definition mute : Ppk2World :=
  {| list_devices := ["/dev/ttyACM0"];
     open_port := fun _ => None;
     get_modifiers := fun _ => Raise (DriverError "timeout");
     set_mode := fun _ _ => None;
     set_source_voltage := fun _ _ => None;
     start_thread := None;
     create_file := fun _ => None |}.

(** A device that verifies, and a file that cannot be created. *)
Definition unwritable : Ppk2World :=
  {| list_devices := ["/dev/ttyACM0"];
     open_port := fun _ => None;
     get_modifiers := fun _ => Return true;
     set_mode := fun _ _ => None;
     set_source_voltage := fun _ _ => None;
     start_thread := None;
     create_file := fun _ => Some (Exception "FileNotFoundError") |}.

(** A port that opens, on which the modifiers read are empty. *)
Definition blank : Ppk2World :=
  {| list_devices := ["/dev/ttyACM0"];
     open_port := fun _ => None;
     get_modifiers := fun _ => Return false;
     set_mode := fun _ _ => None;
     set_source_voltage := fun _ _ => None;
     start_thread := None;
     create_file := fun _ => None |}.

End Faulty.

(** ** Runs that end with a teardown *)

(** A window on the bench that ends with a teardown: the thread polls once,
    the controller calls [delete_power_profiler] while the thread sleeps,
    the thread wakes up, sees the stop flag and ends, and [join()]
    returns. *)
Definition teardown_run : list (label Q) :=
  [Controller (StartMeasuring 1);
   Background [];
   Background [x02];
   Controller (DeletePowerProfiler 5);
   Background [];
   Background [];
   JoinReturns].

Definition torn_down : PowerProfiler Q :=
  match exec Bench.get_samples teardown_run (Bench.idle Q) with
  | Some s => s
  | None => Bench.idle Q
  end.

(** A teardown after [start_measuring] and [stop_measuring], once the
    thread is back at its [with] statement: the controller reaches
    [join()] and nothing can move any more. *)
Definition stopped_run : list (label Q) :=
  [Controller (StartMeasuring 1);
   Background [];
   Background [x02];
   Controller (StopMeasuring 3);
   Background [];
   Background [];
   Controller (DeletePowerProfiler 5)].

(** * The rest of the module *)

(** ** [_average_samples] *)

(** [range(0, stop, step)] for a step that is not zero: the values from 0
    on, [step] apart, as long as they stay on this side of [stop].  No more
    than [|stop|] values can do so, which bounds the recursion. *)
Fixpoint range_from (fuel : nat) (val stop step : Z) : list Z :=
  match fuel with
  | O => []
  | S fuel' =>
      if (if (0 <? step)%Z then (val <? stop)%Z else (stop <? val)%Z)
      then val :: range_from fuel' (val + step) stop step
      else []
  end.

(** [range(0, stop, step)]: a step of zero raises [ValueError]. *)
Definition py_range (stop step : Z) : outcome (list Z) :=
  if (step =? 0)%Z then Raise ValueError
  else Return (range_from (Z.abs_nat stop) 0 stop step).

(** The slice [l[lo:hi]] for [0 <= lo]: the elements from index [lo] up to,
    not including, [hi], as far as the list goes. *)
Definition py_slice (l : list Z) (lo hi : Z) : list Z :=
  firstn (Z.to_nat (hi - lo)) (skipn (Z.to_nat lo) l).

(** The chunks of line 173. *)
Definition chunks_of (l : list Z) (window_size : Z) : outcome (list (list Z)) :=
  obind (py_range (py_len l) window_size) (fun vals =>
    Return (map (fun val => py_slice l val (val + window_size)) vals)).

Section AverageSamples.

Context {F : Type} {num : PyNumber F}.

(** [sum(chunk) / len(chunk)]: the division of two [int]s raises
    [ZeroDivisionError], written [Exception "ZeroDivisionError"] here, when
    the chunk is empty. *)
Definition chunk_average (chunk : list Z) : outcome F :=
  if (py_len chunk =? 0)%Z then Raise (Exception "ZeroDivisionError")
  else Return (num_div (of_int (py_sum chunk)) (of_int (py_len chunk))).

(** The loop of lines 174-176. *)
Fixpoint chunk_averages (chunks : list (list Z)) : outcome (list F) :=
  match chunks with
  | [] => Return []
  | chunk :: rest =>
      obind (chunk_average chunk) (fun avg =>
        obind (chunk_averages rest) (fun avgs => Return (avg :: avgs)))
  end.

(** [_average_samples], lines 171-178. *)
Definition _average_samples (l : list Z) (window_size : Z)
  : outcome (list F) :=
  obind (chunks_of l window_size) chunk_averages.

(** The mean of a chunk that is not empty. *)
Definition mean (chunk : list Z) : F :=
  num_div (of_int (py_sum chunk)) (of_int (py_len chunk)).

End AverageSamples.

(** Every chunk holds [w] elements, but the last, which holds between one
    and [w]. *)
Fixpoint full_but_last (w : nat) (chunks : list (list Z)) : Prop :=
  match chunks with
  | [] => True
  | chunk :: rest =>
      match rest with
      | [] => (1 <= List.length chunk <= w)%nat
      | _ :: _ => List.length chunk = w /\ full_but_last w rest
      end
  end.

(** ** The calls by kind, and the states a constructed object reaches *)

Section Kinds.

Context {F : Type} {num : PyNumber F}.
Variable get_samples : list byte -> list Z.

(** The aggregates and the other reads. *)
Definition is_read (c : call F) : bool :=
  match c with
  | GetMinCurrent | GetMaxCurrent | GetNumMeasurements | GetAverageCurrent
  | GetAveragePowerConsumption | GetAverageCharge | GetMeasurementDuration =>
      true
  | _ => false
  end.

(** The four pass-throughs to the driver, each with the command it
    sends. *)
Definition switches : list (M F bool * command) :=
  [(enable_power, CmdToggleDUTPower true);
   (disable_power, CmdToggleDUTPower false);
   (use_source_meter, CmdUseSourceMeter);
   (use_ampere_meter, CmdUseAmpereMeter)].

(** The object [s'] with the log of [s]: equal to [s] when the two differ
    in their logs only. *)
Definition with_log_of (s s' : PowerProfiler F) : PowerProfiler F :=
  set_log (log s) s'.

(** What holds of every object a construction has returned, however it
    was used since: while it is not measuring the controller holds the
    gate, and [self.ppk2] is a driver object or deleted, never [None]. *)
Definition sound (s : PowerProfiler F) : Prop :=
  (measuring s = false -> (1 <= measure_lock s)%nat)
  /\ ppk2 s <> Ppk2None.

(** What one poll adds to the buffer: nothing for [b''], the decoded
    samples otherwise. *)
Definition decoded (read_data : list byte) : list Z :=
  match read_data with
  | [] => []
  | _ :: _ => get_samples read_data
  end.

(** One turn of the loop of [measurement_loop]: the test of the stop flag,
    the [with] block on the bytes [read_data], and the sleep. *)
Definition cycle (read_data : list byte) : list (label F) :=
  [Background []; Background read_data; Background []].

(** The thread is about to test the stop flag, free to run: the gate is
    free, the flag is down and there is a driver. *)
Definition polling (s : PowerProfiler F) : Prop :=
  measure_lock s = 0%nat
  /\ bg s = BgCheck
  /\ stop s = false
  /\ exists port : string, ppk2 s = Ppk2Obj port.

(** An object without its samples and its log: two objects equal up to
    these have the same flag, lock, time stamps and so on. *)
Definition modulo_samples (s : PowerProfiler F) : PowerProfiler F :=
  set_log [] (set_current_measurements [] s).

(** Ready for a window: not measuring, the gate held once, the thread
    about to test the stop flag, which is down, and a driver. *)
Definition ready (s : PowerProfiler F) : Prop :=
  measuring s = false
  /\ measure_lock s = 1%nat
  /\ bg s = BgCheck
  /\ stop s = false
  /\ ctl s = CtlReady
  /\ exists port : string, ppk2 s = Ppk2Obj port.

(** A whole window: [start_measuring], one turn of the loop per element
    of [reads], [stop_measuring]. *)
Definition window_of (t0 t1 : F) (reads : list (list byte))
  : list (label F) :=
  Controller (StartMeasuring t0)
  :: flat_map cycle reads ++ [Controller (StopMeasuring t1)].

(** The steps the thread takes to end once the stop flag is up, from
    where it sleeps or tests the flag. *)
Definition thread_ends (at_pc : bg_pc) : list (label F) :=
  match at_pc with
  | BgSleep => [Background []; Background []]
  | BgCheck => [Background []]
  | _ => []
  end.

(** A teardown while the thread sleeps or tests the flag: the call, the
    end of the thread, the return of [join()]. *)
Definition teardown_of (now : F) (at_pc : bg_pc) : list (label F) :=
  Controller (DeletePowerProfiler now) :: thread_ends at_pc ++ [JoinReturns].

End Kinds.

(** ** More of the bench *)

(** The bench, measuring, with the thread at its [with] statement. *)
Definition at_gate (F : Type) {num : PyNumber F} : PowerProfiler F :=
  match exec Bench.get_samples [Background []] (Bench.sampling F) with
  | Some s => s
  | None => Bench.idle F
  end.
Arguments at_gate F {num}.

(** The reads of two windows on the bench. *)
Definition two_reads : list (list byte) := [[x01; x02]; []; [x03]].

(** The bench, measuring, after one turn of the loop that read three
    bytes: the thread is about to test the stop flag. *)
Definition polled (F : Type) {num : PyNumber F} : PowerProfiler F :=
  match
    exec Bench.get_samples (cycle [x01; x02; x03]) (Bench.sampling F)
  with
  | Some s => s
  | None => Bench.idle F
  end.
Arguments polled F {num}.

(** Calls and turns of the loop without a [start_measuring]. *)
Definition busy (F : Type) {num : PyNumber F} : list (label F) :=
  Controller GetNumMeasurements
  :: cycle [x04]
  ++ [Controller GetMinCurrent; Controller EnablePower]
  ++ cycle [x05; x06].
Arguments busy F {num}.

(** The same after a [stop_measuring]: the thread comes to the gate and
    stays there. *)
Definition quiet (F : Type) {num : PyNumber F} : list (label F) :=
  [Background []; Controller GetMinCurrent; Controller EnablePower;
   Controller (StopMeasuring (of_int 14)); Controller GetAverageCurrent].
Arguments quiet F {num}.

(** Five samples, for [_average_samples]. *)
Definition five_samples : list Z := [1000; 2000; 3000; 4000; 5000]%Z.

(** The samples that [write_csv_rows] appended to the file, one row each,
    according to a list of events. *)
Definition rows_written (l : list event) : list Z :=
  flat_map (fun e => match e with EvCsvRows rows => rows | _ => [] end) l.

(** The bench with a file to write to, measuring, after one turn of the
    loop that read two bytes. *)
Definition recording (F : Type) {num : PyNumber F} : PowerProfiler F :=
  match init Bench.world None 3300 (Some "samples.csv"%string) true with
  | Return s0 =>
      match
        exec Bench.get_samples
          (Controller (StartMeasuring (of_int 10)) :: cycle [x01; x02]) s0
      with
      | Some s => s
      | None => Bench.idle F
      end
  | Raise _ => Bench.idle F
  end.
Arguments recording F {num}.

(** ** Proof support *)

(** A method run on an object whose attributes are variables is evaluated
    by the virtual machine; where the evaluation is stuck on a test of an
    attribute, the proof splits on it. *)
Ltac py_case :=
  match goal with
  | |- context [match ?x with _ => _ end] => is_var x; destruct x
  end.

Ltac py_eval := vm_compute; repeat (py_case; vm_compute).

(** * Properties *)

(** The bench object is what the constructor returns. *)
Lemma bench_idle_constructed (F : Type) :
  init Bench.world None 3300 None true = Return (Bench.idle F).
Proof. reflexivity. Qed.

Lemma bench_sampling_measuring (F : Type) {num : PyNumber F} :
  measuring (Bench.sampling F) = true
  /\ measure_lock (Bench.sampling F) = 0%nat.
Proof. split; reflexivity. Qed.

(** ** The builtins *)

Lemma py_sum_shift (l : list Z) (a : Z) :
  fold_left Z.add l a = (a + py_sum l)%Z.
Proof.
  unfold py_sum. revert a. induction l as [|x l IH]; cbn; intros a.
  - lia.
  - rewrite (IH (a + x)%Z), (IH x). lia.
Qed.

Lemma py_sum_cons (x : Z) (l : list Z) : py_sum (x :: l) = (x + py_sum l)%Z.
Proof. unfold py_sum at 1. cbn. apply py_sum_shift. Qed.

Lemma py_sum_app (l l' : list Z) :
  py_sum (l ++ l') = (py_sum l + py_sum l')%Z.
Proof.
  induction l as [|x l IH]; [reflexivity|].
  cbn [app]. rewrite !py_sum_cons, IH. lia.
Qed.

Lemma fold_min_spec (r : list Z) (x : Z) :
  In (fold_left Z.min r x) (x :: r)
  /\ forall y : Z, In y (x :: r) -> (fold_left Z.min r x <= y)%Z.
Proof.
  revert x. induction r as [|a r IH]; intros x; cbn [fold_left].
  - split; [left; reflexivity|]. intros y [<- | []]. lia.
  - destruct (IH (Z.min x a)) as [Hin Hle]. split.
    + destruct Hin as [E | Hin]; [|right; right; exact Hin].
      rewrite <- E. destruct (Z.min_spec x a) as [[_ ->] | [_ ->]];
        [left | right; left]; reflexivity.
    + intros y Hy.
      assert (Hm : (fold_left Z.min r (Z.min x a) <= Z.min x a)%Z)
        by (apply Hle; left; reflexivity).
      destruct Hy as [<- | [<- | Hy]]; [lia | lia |].
      apply Hle. right. exact Hy.
Qed.

Lemma fold_max_spec (r : list Z) (x : Z) :
  In (fold_left Z.max r x) (x :: r)
  /\ forall y : Z, In y (x :: r) -> (y <= fold_left Z.max r x)%Z.
Proof.
  revert x. induction r as [|a r IH]; intros x; cbn [fold_left].
  - split; [left; reflexivity|]. intros y [<- | []]. lia.
  - destruct (IH (Z.max x a)) as [Hin Hle]. split.
    + destruct Hin as [E | Hin]; [|right; right; exact Hin].
      rewrite <- E. destruct (Z.max_spec x a) as [[_ ->] | [_ ->]];
        [right; left | left]; reflexivity.
    + intros y Hy.
      assert (Hm : (Z.max x a <= fold_left Z.max r (Z.max x a))%Z)
        by (apply Hle; left; reflexivity).
      destruct Hy as [<- | [<- | Hy]]; [lia | lia |].
      apply Hle. right. exact Hy.
Qed.

(** [py_min] and [py_max] return an element of the list that bounds all
    the others, and nothing on the empty list only. *)
Lemma py_min_spec (l : list Z) (m : Z) :
  py_min l = Some m -> In m l /\ forall y : Z, In y l -> (m <= y)%Z.
Proof.
  destruct l as [|x r]; [discriminate|]. intros [= <-]. apply fold_min_spec.
Qed.

Lemma py_max_spec (l : list Z) (m : Z) :
  py_max l = Some m -> In m l /\ forall y : Z, In y l -> (y <= m)%Z.
Proof.
  destruct l as [|x r]; [discriminate|]. intros [= <-]. apply fold_max_spec.
Qed.

(** ** Aggregates *)

Section Aggregates.

Context {F : Type} {num : PyNumber F}.

Lemma get_average_current_mA_run (s : PowerProfiler F) :
  get_average_current_mA s
  = (Return (spec_average_current_mA (current_measurements s)),
     after_locked_read s).
Proof.
  destruct s as [m k st p v buf t0 t1 th fn b c lg].
  destruct buf as [|x buf]; vm_compute; reflexivity.
Qed.

(** C1.  Whatever samples [S] the buffer holds, [get_average_current_mA]
    returns [(sum(S)/len(S))/1000] when [S] is not empty and 0 when it
    is; it raises nothing and leaves the buffer as it was. *)
Theorem average_current_is_mean_over_1000 (s : PowerProfiler F) :
  fst (get_average_current_mA s)
  = Return (spec_average_current_mA (current_measurements s))
  /\ (current_measurements s = [] ->
      fst (get_average_current_mA s) = Return (of_int 0))
  /\ current_measurements (snd (get_average_current_mA s))
     = current_measurements s.
Proof.
  rewrite get_average_current_mA_run. cbn [fst snd].
  split; [reflexivity|]. split.
  - intros ->. reflexivity.
  - reflexivity.
Qed.

End Aggregates.

(** ** Errors of the aggregates, and the second [start_measuring] *)

Section Reads.

Context {F : Type} {num : PyNumber F}.

Lemma get_min_current_mA_empty (s : PowerProfiler F) :
  current_measurements s = [] ->
  get_min_current_mA s = (Raise ValueError, after_locked_read s).
Proof.
  destruct s as [m k st p v buf t0 t1 th fn b c lg].
  cbn [current_measurements]. intros ->. reflexivity.
Qed.

Lemma get_max_current_mA_empty (s : PowerProfiler F) :
  current_measurements s = [] ->
  get_max_current_mA s = (Raise ValueError, after_locked_read s).
Proof.
  destruct s as [m k st p v buf t0 t1 th fn b c lg].
  cbn [current_measurements]. intros ->. reflexivity.
Qed.

(** C2.  On an empty buffer [get_min_current_mA] and [get_max_current_mA]
    raise ([ValueError], from [min] and [max] of an empty list): neither
    returns a number. *)
Theorem extremum_of_empty_buffer_raises (s : PowerProfiler F) :
  current_measurements s = [] ->
  (fst (get_min_current_mA s) = Raise ValueError
   /\ forall x : F, fst (get_min_current_mA s) <> Return x)
  /\ (fst (get_max_current_mA s) = Raise ValueError
      /\ forall x : F, fst (get_max_current_mA s) <> Return x).
Proof.
  intros E.
  rewrite (get_min_current_mA_empty s E), (get_max_current_mA_empty s E).
  cbn [fst]. repeat split; discriminate.
Qed.

(** C6.  While [measurement_start_time] or [measurement_stop_time] is
    still [None], [get_measurement_duration_s] raises ([TypeError], from
    the subtraction) and returns no duration. *)
Theorem duration_without_both_bounds_raises (s : PowerProfiler F) :
  measurement_start_time s = None \/ measurement_stop_time s = None ->
  fst (get_measurement_duration_s s) = Raise TypeError
  /\ forall d : F, fst (get_measurement_duration_s s) <> Return d.
Proof.
  destruct s as [m k st p v buf t0 t1 th fn b c lg].
  cbn [measurement_start_time measurement_stop_time].
  intros [-> | ->]; [destruct t1 | destruct t0];
    (split; [reflexivity | discriminate]).
Qed.

Lemma start_measuring_measuring_run (now : F) (s : PowerProfiler F) :
  measuring s = true ->
  start_measuring now s = (Return tt, after_locked_read s).
Proof.
  destruct s as [m k st p v buf t0 t1 th fn b c lg].
  cbn [measuring]. intros ->. reflexivity.
Qed.

(** C3.  A [start_measuring] on an object that is already measuring
    changes nothing: it takes and gives back the lock, and every
    attribute, the buffer and [measurement_start_time] among them, is
    what it was; no command reaches the driver. *)
Theorem start_measuring_while_measuring_is_noop
    (now : F) (s : PowerProfiler F) :
  measuring s = true ->
  start_measuring now s = (Return tt, after_locked_read s)
  /\ current_measurements (snd (start_measuring now s))
     = current_measurements s
  /\ measurement_start_time (snd (start_measuring now s))
     = measurement_start_time s
  /\ measure_lock (snd (start_measuring now s)) = measure_lock s.
Proof.
  intros E. rewrite (start_measuring_measuring_run now s E).
  repeat split.
Qed.

End Reads.

Lemma extremum_of_empty_buffer_raises_witness :
  current_measurements (Bench.idle Q) = []
  /\ fst (get_min_current_mA (Bench.idle Q)) = Raise ValueError
  /\ fst (get_max_current_mA (Bench.idle Q)) = Raise ValueError.
Proof.
  split; [reflexivity|].
  pose proof (extremum_of_empty_buffer_raises (Bench.idle Q) eq_refl)
    as [[Hmin _] [Hmax _]].
  split; assumption.
Defined.

Lemma duration_without_both_bounds_raises_witness :
  measurement_stop_time (Bench.sampling Q) = None
  /\ fst (get_measurement_duration_s (Bench.sampling Q)) = Raise TypeError.
Proof.
  split; [reflexivity|].
  apply (duration_without_both_bounds_raises (Bench.sampling Q)).
  right. reflexivity.
Defined.

Lemma start_measuring_while_measuring_is_noop_witness :
  measuring (Bench.sampling Q) = true
  /\ current_measurements (snd (start_measuring 11 (Bench.sampling Q)))
     = current_measurements (Bench.sampling Q)
  /\ measurement_start_time (snd (start_measuring 11 (Bench.sampling Q)))
     = Some 10.
Proof.
  split; [reflexivity|].
  pose proof (start_measuring_while_measuring_is_noop 11 (Bench.sampling Q)
                eq_refl) as [_ [Hbuf [Hstart _]]].
  split; [exact Hbuf|]. rewrite Hstart. reflexivity.
Defined.

(** ** The order of the effects of [start_measuring] *)

Section StartOrder.

Context {F : Type} {num : PyNumber F}.

Lemma firstn_new_events (l l' : list event) :
  firstn (List.length (l ++ l') - List.length l') (l ++ l') = l.
Proof.
  rewrite length_app, Nat.add_sub, firstn_app, firstn_all, Nat.sub_diag.
  cbn [firstn]. apply app_nil_r.
Qed.

Lemma emitted_new_events (s s' : PowerProfiler F) (l : list event) :
  log s' = l ++ log s -> emitted s s' = rev l.
Proof.
  intros E. unfold emitted. rewrite E, firstn_new_events. reflexivity.
Qed.

Lemma start_measuring_idle_run
    (now : F) (s : PowerProfiler F) (k : nat) (port : string) :
  measuring s = false ->
  measure_lock s = S k ->
  ppk2 s = Ppk2Obj port ->
  start_measuring now s
  = (Return tt,
     set_log ([EvRelease k; EvStartTime; EvDriver CmdStartMeasuring;
               EvMeasuring true; EvRelease (S k); EvResetBuffer;
               EvAcquire (S (S k))] ++ log s)
       (set_measurement_start_time (Some now)
          (set_measuring true
             (set_measure_lock k
                (set_current_measurements [] s))))).
Proof.
  destruct s as [m l st p v buf t0 t1 th fn b c lg].
  cbn [measuring measure_lock ppk2]. intros -> -> ->. reflexivity.
Qed.

(** [start_measuring] on an object that is not measuring and has no
    driver: the call of line 187 raises. *)
Lemma start_measuring_no_driver_run
    (now : F) (s : PowerProfiler F) (k : nat) :
  measuring s = false ->
  measure_lock s = S k ->
  (forall port : string, ppk2 s <> Ppk2Obj port) ->
  start_measuring now s
  = (Raise AttributeError,
     set_log ([EvRelease k; EvMeasuring true; EvRelease (S k);
               EvResetBuffer; EvAcquire (S (S k))] ++ log s)
       (set_measuring true
          (set_measure_lock k
             (set_current_measurements [] s)))).
Proof.
  destruct s as [m l st p v buf t0 t1 th fn b c lg].
  cbn [measuring measure_lock ppk2]. intros -> -> Hp.
  destruct p as [| |port]; [reflexivity | reflexivity |].
  contradiction (Hp port). reflexivity.
Qed.

(** C4, as the code has it.  A [start_measuring] on an object that is not
    measuring and whose lock the controller holds at level [k + 1]
    empties the buffer, sets the flag and leaves the lock at level [k].
    With a driver it performs in this order: the buffer reset, the release
    of one level (the [with] block still holds the lock), the flag, the
    hardware start command, the record of the start time, and last the
    release of the [with] block, down to level [k].  The start time is
    recorded after the hardware start, and the gate is freed by the last
    step when the lock was held once ([k = 0]).  Without a driver, once a
    teardown has deleted [self.ppk2], the call raises [AttributeError] at
    the hardware start: the reset, the release and the flag are done, no
    command is sent, the start time stays what it was, and the [with]
    block gives back its level all the same. *)
Theorem start_measuring_effects_in_order
    (now : F) (s : PowerProfiler F) (k : nat) :
  measuring s = false ->
  measure_lock s = S k ->
  current_measurements (snd (start_measuring now s)) = []
  /\ measuring (snd (start_measuring now s)) = true
  /\ measure_lock (snd (start_measuring now s)) = k
  /\ match ppk2 s with
     | Ppk2Obj _ =>
         fst (start_measuring now s) = Return tt
         /\ emitted s (snd (start_measuring now s))
            = [EvAcquire (S (S k)); EvResetBuffer; EvRelease (S k);
               EvMeasuring true; EvDriver CmdStartMeasuring; EvStartTime;
               EvRelease k]
         /\ measurement_start_time (snd (start_measuring now s))
            = Some now
     | _ =>
         fst (start_measuring now s) = Raise AttributeError
         /\ emitted s (snd (start_measuring now s))
            = [EvAcquire (S (S k)); EvResetBuffer; EvRelease (S k);
               EvMeasuring true; EvRelease k]
         /\ measurement_start_time (snd (start_measuring now s))
            = measurement_start_time s
     end.
Proof.
  intros Hm Hl.
  destruct (ppk2 s) as [| |port] eqn:Hp.
  - rewrite (start_measuring_no_driver_run now s Hm Hl)
      by (intros port; congruence).
    cbn [fst snd]. do 4 (split; [reflexivity|]). split.
    + erewrite emitted_new_events; [|reflexivity]. reflexivity.
    + destruct s; reflexivity.
  - rewrite (start_measuring_no_driver_run now s Hm Hl)
      by (intros port; congruence).
    cbn [fst snd]. do 4 (split; [reflexivity|]). split.
    + erewrite emitted_new_events; [|reflexivity]. reflexivity.
    + destruct s; reflexivity.
  - rewrite (start_measuring_idle_run now s Hm Hl Hp). cbn [fst snd].
    do 4 (split; [reflexivity|]). split.
    + erewrite emitted_new_events; [|reflexivity]. reflexivity.
    + reflexivity.
Qed.

End StartOrder.

(** C4, as the specification words it, fails on the object just
    constructed: the start time is recorded after the hardware start
    command, not before it. *)
Lemma start_order_of_spec_not_met :
  measuring (Bench.idle Q) = false
  /\ in_order spec_start_order
       (emitted (Bench.idle Q) (snd (start_measuring 10 (Bench.idle Q))))
     = false
  /\ in_order [EvDriver CmdStartMeasuring; EvStartTime]
       (emitted (Bench.idle Q) (snd (start_measuring 10 (Bench.idle Q))))
     = true.
Proof. repeat split. Qed.

Lemma start_measuring_effects_in_order_witness :
  (emitted (Bench.idle Q) (snd (start_measuring 10 (Bench.idle Q)))
   = [EvAcquire 2; EvResetBuffer; EvRelease 1; EvMeasuring true;
      EvDriver CmdStartMeasuring; EvStartTime; EvRelease 0]
   /\ measurement_start_time (snd (start_measuring 10 (Bench.idle Q)))
      = Some 10)
  /\ (fst (start_measuring 20 torn_down) = Raise AttributeError
      /\ emitted torn_down (snd (start_measuring 20 torn_down))
         = [EvAcquire 2; EvResetBuffer; EvRelease 1; EvMeasuring true;
            EvRelease 0]
      /\ measurement_start_time (snd (start_measuring 20 torn_down))
         = measurement_start_time torn_down).
Proof.
  assert (Hm : measuring torn_down = false) by (vm_compute; reflexivity).
  assert (Hk : measure_lock torn_down = 1%nat) by (vm_compute; reflexivity).
  pose proof (@start_measuring_effects_in_order Q 10 (Bench.idle Q) 0%nat
                eq_refl eq_refl) as (_ & _ & _ & H1).
  pose proof (@start_measuring_effects_in_order Q 20 torn_down 0%nat Hm Hk)
    as (_ & _ & _ & H2).
  vm_compute in H1, H2. vm_compute.
  split; [split; apply H1 | exact H2].
Defined.

(** ** Energy and charge over a window *)

Section Window.

Context {F : Type} {num : PyNumber F}.

Lemma get_average_power_consumption_mWh_run
    (s : PowerProfiler F) (t0 t1 : F) :
  measurement_start_time s = Some t0 ->
  measurement_stop_time s = Some t1 ->
  get_average_power_consumption_mWh s
  = (Return
       (num_mul
          (average_power_mW (source_voltage_mV s)
             (spec_average_current_mA (current_measurements s)))
          (num_div (num_sub t1 t0) (of_int 3600))),
     after_nested_read s).
Proof.
  destruct s as [m k st p v buf s0 s1 th fn b c lg].
  cbn [measurement_start_time measurement_stop_time]. intros -> ->.
  destruct buf as [|x buf]; vm_compute; reflexivity.
Qed.

Lemma get_average_charge_mC_run (s : PowerProfiler F) (t0 t1 : F) :
  measurement_start_time s = Some t0 ->
  measurement_stop_time s = Some t1 ->
  get_average_charge_mC s
  = (Return
       (num_mul (spec_average_current_mA (current_measurements s))
                (num_sub t1 t0)),
     after_nested_read s).
Proof.
  destruct s as [m k st p v buf s0 s1 th fn b c lg].
  cbn [measurement_start_time measurement_stop_time]. intros -> ->.
  destruct buf as [|x buf]; vm_compute; reflexivity.
Qed.

End Window.

(** ** The scenario of three samples over two seconds *)

Lemma scenario_exact (s : PowerProfiler Q) :
  in_scenario (fun d => d == 2) s -> scenario_results_exact s.
Proof.
  intros (Hbuf & Hv & t0 & t1 & H0 & H1 & Hd). cbn in Hd.
  unfold scenario_results_exact.
  rewrite get_average_current_mA_run,
    (get_average_power_consumption_mWh_run s H0 H1),
    (get_average_charge_mC_run s H0 H1), Hbuf, Hv.
  cbn [fst]. do 3 eexists.
  split; [reflexivity|]. split; [reflexivity|]. split; [reflexivity|].
  cbn [num_mul num_div num_sub of_int PyNumber_Q].
  repeat split; try rewrite Hd; reflexivity.
Qed.

Lemma scenario_binary64 (s : PowerProfiler float) :
  in_scenario (fun d => d = 2%float) s -> scenario_results_binary64 s.
Proof.
  intros (Hbuf & Hv & t0 & t1 & H0 & H1 & Hd). cbn in Hd.
  unfold scenario_results_binary64.
  rewrite get_average_current_mA_run,
    (get_average_power_consumption_mWh_run s H0 H1),
    (get_average_charge_mC_run s H0 H1), Hbuf, Hv.
  cbn [fst num_mul num_div num_sub of_int PyNumber_float]. rewrite Hd.
  eexists. split; [vm_compute; reflexivity|].
  split; [vm_compute; reflexivity|].
  split; [reflexivity|].
  split; vm_compute; reflexivity.
Qed.

(** C5.  With the buffer [1000, 2000, 3000], [source_voltage_mV = 3300]
    and a window of 2 seconds, the average current is 2.0 mA, the average
    power 6.6 mW, the energy 0.003667 mWh to six places and the charge
    4.0 mC: in exact arithmetic and in binary64. *)
Theorem scenario_three_samples_two_seconds
    (sq : PowerProfiler Q) (sf : PowerProfiler float) :
  in_scenario (fun d => d == 2) sq ->
  in_scenario (fun d => d = 2%float) sf ->
  scenario_results_exact sq /\ scenario_results_binary64 sf.
Proof.
  intros Hq Hf. split; [apply scenario_exact | apply scenario_binary64];
    assumption.
Qed.

Lemma measured_run (F : Type) {num : PyNumber F} :
  exec Bench.get_samples (Bench.window F) (Bench.idle F)
  = Some (measured F).
Proof. vm_compute. reflexivity. Qed.

Lemma scenario_three_samples_two_seconds_witness :
  scenario_results_exact (measured Q)
  /\ scenario_results_binary64 (measured float).
Proof.
  apply (@scenario_three_samples_two_seconds (measured Q) (measured float)).
  - repeat split. exists 10, 12. repeat split.
  - repeat split. exists 10%float, 12%float. repeat split.
Defined.

(** ** Construction *)

Section ConstructionRuns.

Context {F : Type}.

(** Without exactly one device, [discover_port] does not return [None]:
    it raises [TypeError] at line 125. *)
Lemma discover_port_not_one (w : Ppk2World) :
  List.length (list_devices w) <> 1%nat ->
  discover_port w = Raise TypeError.
Proof.
  unfold discover_port.
  destruct (list_devices w) as [|p [|q l]]; cbn; intros Hn;
    [reflexivity | contradiction Hn; reflexivity | reflexivity].
Qed.

(** [__init__] from the moment [PPK2_API] has opened the port [p]. *)
Lemma init_self_opened (w : Ppk2World) (serial_port : option string)
    (source_voltage : Z) (file : option string) (source_meter : bool)
    (p : string) :
  resolved_port w serial_port = Some p ->
  open_port w p = None ->
  @init_self F w serial_port source_voltage file source_meter
  = match get_modifiers w p with
    | Raise e =>
        Broken e {| hb_ppk2 := Ppk2Obj p; hb_thread_started := false |}
    | Return false =>
        Broken (Exception "Error when initing PowerProfiler")
          {| hb_ppk2 := Ppk2None; hb_thread_started := false |}
    | Return true =>
        match set_mode w p source_meter with
        | Some e =>
            Broken e {| hb_ppk2 := Ppk2Obj p; hb_thread_started := false |}
        | None =>
        match set_source_voltage w p source_voltage with
        | Some e =>
            Broken e {| hb_ppk2 := Ppk2Obj p; hb_thread_started := false |}
        | None =>
        match start_thread w with
        | Some e =>
            Broken e {| hb_ppk2 := Ppk2Obj p; hb_thread_started := false |}
        | None =>
        match
          match file with
          | Some name => create_file w name
          | None => None
          end
        with
        | Some e =>
            Broken e {| hb_ppk2 := Ppk2Obj p; hb_thread_started := true |}
        | None => Built (new_object p source_voltage file source_meter)
        end end end end
    end.
Proof.
  intros Hp Ho. unfold init_self, resolved_port in *.
  destruct (truthy serial_port) eqn:Ht.
  - subst serial_port. cbn [new_ppk2]. rewrite Ho.
    destruct (get_modifiers w p) as [[|]|e]; reflexivity.
  - unfold discover_port.
    destruct (list_devices w) as [|q [|q' l]]; try discriminate Hp.
    cbn [obind]. destruct (truthy (Some q)); [|discriminate Hp].
    injection Hp as ->. cbn [new_ppk2]. rewrite Ho.
    destruct (get_modifiers w p) as [[|]|e]; reflexivity.
Qed.

(** [__init__] when no port is settled on or the port does not open: it
    raises with [self.ppk2] still [None]. *)
Lemma init_self_not_opened (w : Ppk2World) (serial_port : option string)
    (source_voltage : Z) (file : option string) (source_meter : bool) :
  (forall p : string,
     resolved_port w serial_port = Some p -> open_port w p <> None) ->
  exists e : exn,
    @init_self F w serial_port source_voltage file source_meter
    = Broken e {| hb_ppk2 := Ppk2None; hb_thread_started := false |}.
Proof.
  intros H. unfold init_self, resolved_port in *.
  destruct (truthy serial_port) eqn:Ht.
  - destruct serial_port as [p|]; [|discriminate Ht]. cbn [new_ppk2].
    specialize (H p eq_refl).
    destruct (open_port w p) as [e|]; [eauto | contradiction H; reflexivity].
  - unfold discover_port.
    destruct (list_devices w) as [|q [|q' l]]; cbn [obind call_logger];
      eauto.
    destruct (truthy (Some q)); cbn [new_ppk2]; [|eauto].
    specialize (H q eq_refl).
    destruct (open_port w q) as [e|]; [eauto | contradiction H; reflexivity].
Qed.

(** What a returned object tells about the construction. *)
Lemma init_returns (w : Ppk2World) (serial_port : option string)
    (source_voltage : Z) (file : option string) (source_meter : bool)
    (s0 : PowerProfiler F) :
  init w serial_port source_voltage file source_meter = Return s0 ->
  exists p : string,
    resolved_port w serial_port = Some p
    /\ open_port w p = None
    /\ get_modifiers w p = Return true
    /\ set_up_returns w p source_voltage file source_meter
    /\ s0 = new_object p source_voltage file source_meter.
Proof.
  intros H.
  destruct (resolved_port w serial_port) as [p|] eqn:Hp.
  - destruct (open_port w p) as [e|] eqn:Ho.
    + destruct (@init_self_not_opened w serial_port source_voltage file
                  source_meter) as [e' E].
      { intros q Hq. rewrite Hp in Hq. injection Hq as <-.
        rewrite Ho. discriminate. }
      unfold init in H. rewrite E in H. discriminate H.
    + unfold init in H.
      rewrite (init_self_opened w serial_port source_voltage file
                 source_meter Hp Ho) in H.
      exists p. unfold set_up_returns.
      destruct (get_modifiers w p) as [[|]|e]; try discriminate H.
      destruct (set_mode w p source_meter); try discriminate H.
      destruct (set_source_voltage w p source_voltage);
        try discriminate H.
      destruct (start_thread w); try discriminate H.
      destruct file as [name|];
        [destruct (create_file w name); try discriminate H|];
        injection H as <-; repeat split; first [reflexivity | assumption].
  - destruct (@init_self_not_opened w serial_port source_voltage file
                source_meter) as [e' E].
    { intros q Hq. rewrite Hp in Hq. discriminate Hq. }
    unfold init in H. rewrite E in H. discriminate H.
Qed.

Lemma init_discovery_fails (w : Ppk2World) (serial_port : option string)
    (source_voltage : Z) (file : option string) (source_meter : bool) :
  discovery_fails w serial_port ->
  @init_self F w serial_port source_voltage file source_meter
  = Broken TypeError {| hb_ppk2 := Ppk2None; hb_thread_started := false |}.
Proof.
  intros [Ht Hn]. unfold init_self. rewrite Ht.
  rewrite (discover_port_not_one w Hn). reflexivity.
Qed.

(** Where the claim on failing constructions holds and where it does not,
    on every set-up.  When discovery fails, and when [get_modifiers]
    returns nothing true, [__init__] raises with [self.ppk2] at [None].
    When [get_modifiers] raises, [__init__] raises the same exception with
    [self.ppk2] still bound to the driver of the opened port. *)
Lemma failed_construction_and_the_handle
    (w : Ppk2World) (serial_port : option string) (source_voltage : Z)
    (file : option string) (source_meter : bool) :
  (discovery_fails w serial_port ->
   init w serial_port source_voltage file source_meter
   = @Raise (PowerProfiler F) TypeError
   /\ device_handle
        (@init_self F w serial_port source_voltage file source_meter)
      = None)
  /\ (forall p : string,
        resolved_port w serial_port = Some p ->
        open_port w p = None ->
        (get_modifiers w p = Return false ->
         init w serial_port source_voltage file source_meter
         = @Raise (PowerProfiler F)
             (Exception "Error when initing PowerProfiler")
         /\ device_handle
              (@init_self F w serial_port source_voltage file source_meter)
            = None)
        /\ (forall e : exn,
              get_modifiers w p = Raise e ->
              init w serial_port source_voltage file source_meter
              = @Raise (PowerProfiler F) e
              /\ device_handle
                   (@init_self F w serial_port source_voltage file
                      source_meter)
                 = Some p)).
Proof.
  split.
  - intros H. unfold init. rewrite (init_discovery_fails _ _ _ H).
    split; reflexivity.
  - intros p Hp Ho. unfold init.
    rewrite (init_self_opened w serial_port source_voltage file
               source_meter Hp Ho).
    split; [intros -> | intros e ->]; split; reflexivity.
Qed.

End ConstructionRuns.

(** A file that cannot be created makes the constructor raise at line 82,
    after the thread has been started at line 78 and with [self.ppk2]
    bound to the driver. *)
Lemma construction_with_unwritable_file :
  @init_self Q Faulty.unwritable None 3300 (Some EmptyString) true
  = Broken (Exception "FileNotFoundError")
      {| hb_ppk2 := Ppk2Obj "/dev/ttyACM0"; hb_thread_started := true |}
  /\ @init Q Faulty.unwritable None 3300 (Some EmptyString) true
     = Raise (Exception "FileNotFoundError")
  /\ @init Q Faulty.unwritable None 3300 None true
     = Return (Bench.idle Q).
Proof. repeat split. Qed.

(** C9, on the code.  On a port that opens and on which [get_modifiers]
    raises, the constructor raises that exception, and the object under
    construction still refers to the driver of the opened port: line 54,
    which resets [self.ppk2] when [get_modifiers] returns nothing true, is
    not reached from the [except] block of lines 48-51.  On the two other
    failures of the claim, modifiers that are empty and two instruments on
    the bus, the constructor raises and [self.ppk2] is [None]. *)
Theorem failed_verification_keeps_the_driver :
  @init_self Q Faulty.mute (Some "/dev/ttyACM0"%string) 3300 None true
  = Broken (DriverError "timeout")
      {| hb_ppk2 := Ppk2Obj "/dev/ttyACM0"; hb_thread_started := false |}
  /\ @init Q Faulty.mute (Some "/dev/ttyACM0"%string) 3300 None true
     = Raise (DriverError "timeout")
  /\ device_handle
       (@init_self Q Faulty.mute (Some "/dev/ttyACM0"%string) 3300 None true)
     = Some "/dev/ttyACM0"%string
  /\ @init Q Faulty.blank None 3300 None true
     = Raise (Exception "Error when initing PowerProfiler")
  /\ device_handle (@init_self Q Faulty.blank None 3300 None true) = None
  /\ @init Q Faulty.crowded None 3300 None true = Raise TypeError
  /\ device_handle (@init_self Q Faulty.crowded None 3300 None true) = None.
Proof. repeat (split; [vm_compute; reflexivity|]). vm_compute. reflexivity. Qed.

(** ** Invariants of the interleaving *)

Section Interleaving.

Context {F : Type} {num : PyNumber F}.
Variable get_samples : list byte -> list Z.

Local Abbreviation step := (sys_step get_samples).
Local Abbreviation run := (exec get_samples).

(** A property kept by every enabled step that a filter lets through is
    kept by every schedule of such steps. *)
Lemma exec_invariant (P : PowerProfiler F -> Prop) (ok : label F -> bool) :
  (forall l s s', ok l = true -> P s -> step l s = Some s' -> P s') ->
  forall ls s s',
    forallb ok ls = true -> P s -> run ls s = Some s' -> P s'.
Proof.
  intros Hstep ls. induction ls as [|l ls IH]; cbn; intros s s' Hok HP Hrun.
  - injection Hrun as <-. exact HP.
  - apply andb_prop in Hok as [Hl Hls].
    destruct (step l s) as [s1|] eqn:E; [|discriminate].
    exact (IH s1 s' Hls (Hstep l s s1 Hl HP E) Hrun).
Qed.

Lemma exec_app (ls1 ls2 : list (label F)) (s : PowerProfiler F) :
  run (ls1 ++ ls2) s
  = match run ls1 s with
    | Some s1 => run ls2 s1
    | None => None
    end.
Proof.
  revert s. induction ls1 as [|l ls1 IH]; cbn; intros s; [reflexivity|].
  destruct (step l s); [apply IH | reflexivity].
Qed.

(** Every call has the effect [call_effect] says. *)
Lemma run_call_effect (c : call F) (s : PowerProfiler F) :
  call_effect c s (snd (run_call c s)).
Proof.
  destruct s as [m k st p v buf t0 t1 th fn b cp lg].
  destruct c; destruct buf as [|x buf]; py_eval; repeat split.
Qed.

Lemma delete_leave_effect (s : PowerProfiler F) :
  unchanged_gate s (snd (delete_leave s)).
Proof.
  destruct s as [m k st p v buf t0 t1 th fn b cp lg].
  py_eval; repeat split.
Qed.

Lemma delete_joined_effect (s : PowerProfiler F) :
  unchanged_gate s (snd (delete_joined s)).
Proof.
  destruct s as [m k st p v buf t0 t1 th fn b cp lg].
  py_eval; repeat split.
Qed.

Lemma unchanged_gate_refl (s : PowerProfiler F) : unchanged_gate s s.
Proof. repeat split. Qed.

Lemma unchanged_gate_trans (s1 s2 s3 : PowerProfiler F) :
  unchanged_gate s1 s2 -> unchanged_gate s2 s3 -> unchanged_gate s1 s3.
Proof.
  intros (A1 & B1 & C1 & D1) (A2 & B2 & C2 & D2).
  repeat split; congruence.
Qed.

Lemma call_effect_then_unchanged (c : call F) (s1 s2 s3 : PowerProfiler F) :
  call_effect c s1 s2 -> unchanged_gate s2 s3 -> call_effect c s1 s3.
Proof.
  intros (A1 & H1) (A2 & B2 & C2 & D2). split; [congruence|].
  destruct c; try (destruct (measuring s1));
    repeat match goal with H : _ /\ _ |- _ => destruct H end;
    repeat split; congruence.
Qed.

(** A step of the controller is its call, followed by nothing that touches
    the gate. *)
Lemma controller_step_effect (c : call F) (s s' : PowerProfiler F) :
  step (Controller c) s = Some s' ->
  ctl s = CtlReady /\ call_effect c s s'.
Proof.
  cbn [sys_step]. destruct (ctl s); [|discriminate]. intros H.
  split; [reflexivity|].
  pose proof (run_call_effect c s) as E.
  destruct (run_call c s) as [r s1]. cbn [snd] in E.
  destruct c; try (injection H as <-; exact E).
  destruct r as [u|e]; [|injection H as <-; exact E].
  destruct (measurement_thread s1); injection H as <-.
  - eapply call_effect_then_unchanged; [exact E|]. repeat split.
  - eapply call_effect_then_unchanged; [exact E|].
    apply delete_leave_effect.
Qed.

(** While the controller holds the gate, a step of the background thread
    moves its program point only. *)
Lemma background_step_held (d : list byte) (s s' : PowerProfiler F) :
  (1 <= measure_lock s)%nat ->
  step (Background d) s = Some s' ->
  unchanged_gate s s'.
Proof.
  cbn [sys_step]. unfold measurement_loop_step. intros Hk.
  destruct (bg s); try discriminate.
  - intros [= <-]. repeat split.
  - destruct (measure_lock s); [lia | discriminate].
  - intros [= <-]. repeat split.
Qed.

Lemma join_step_effect (s s' : PowerProfiler F) :
  step JoinReturns s = Some s' -> unchanged_gate s s'.
Proof.
  cbn [sys_step]. destruct (ctl s); [discriminate|].
  destruct (bg s); try discriminate. intros [= <-].
  unfold bind.
  pose proof (delete_joined_effect (set_ctl CtlReady s)) as E1.
  destruct (delete_joined (set_ctl CtlReady s)) as [[u|e] s1];
    cbn [snd] in *.
  - eapply unchanged_gate_trans; [|apply delete_leave_effect].
    eapply unchanged_gate_trans; [|exact E1]. repeat split.
  - eapply unchanged_gate_trans; [|exact E1]. repeat split.
Qed.

Lemma idle_inv_step (l : label F) (s s' : PowerProfiler F) :
  no_start l = true -> idle_inv s -> step l s = Some s' -> idle_inv s'.
Proof.
  intros Hok (Hm & Hk & Hb & Ha) Hstep.
  assert (U : unchanged_gate s s' -> idle_inv s').
  { intros (A & B & C & D). unfold idle_inv.
    rewrite A, B, C, D. auto. }
  destruct l as [c | d |].
  - apply controller_step_effect in Hstep as [_ (A & E)].
    unfold idle_inv. rewrite A.
    destruct c; try discriminate Hok; cbn in E;
      destruct E as (B & C & D); rewrite B, C, D;
      repeat split; auto; lia.
  - apply U. eapply background_step_held; eauto.
  - apply U. apply join_step_effect. exact Hstep.
Qed.

Lemma wedged_step (l : label F) (s s' : PowerProfiler F) :
  wedged s -> step l s = Some s' -> wedged s'.
Proof.
  intros (Hb & Hk) Hstep.
  assert (Hk1 : (1 <= measure_lock s)%nat) by (destruct (measuring s); lia).
  assert (U : unchanged_gate s s' -> wedged s').
  { intros (A & B & C & D). unfold wedged.
    rewrite B, C, D. auto. }
  destruct l as [c | d |].
  - apply controller_step_effect in Hstep as [_ (A & E)].
    unfold wedged.
    destruct c; cbn in E;
      try (destruct E as (B & C & D); rewrite B, C, D; split; auto;
           destruct (measuring s); lia).
    destruct E as (B & E). rewrite B.
    destruct (measuring s); destruct E as (C & D); rewrite C, D;
      split; auto; lia.
  - apply U. eapply background_step_held; eauto.
  - apply U. apply join_step_effect. exact Hstep.
Qed.

End Interleaving.

(** ** Before the first [start_measuring] *)

Section BeforeFirstStart.

Context {F : Type} {num : PyNumber F}.
Variable get_samples : list byte -> list Z.

(** A constructed object is in the state [Idle]. *)
Lemma init_idle (w : Ppk2World) (serial_port : option string)
    (source_voltage : Z) (file : option string) (source_meter : bool)
    (s0 : PowerProfiler F) :
  init w serial_port source_voltage file source_meter = Return s0 ->
  idle_inv s0 /\ bg s0 = BgCheck /\ ctl s0 = CtlReady.
Proof.
  intros H. destruct (init_returns _ _ _ _ _ H) as (p & _ & _ & _ & _ & ->).
  unfold idle_inv, appended. cbn.
  repeat split; try lia. destruct file; reflexivity.
Qed.

Lemma get_num_measurements_run (s : PowerProfiler F) :
  get_num_measurements s
  = (Return (py_len (current_measurements s)), after_locked_read s).
Proof.
  destruct s as [m k st p v buf t0 t1 th fn b c lg]. reflexivity.
Qed.

(** C7.  From construction on, as long as the controller has not called
    [start_measuring], whatever else it calls and however the background
    thread is scheduled: no sample has been appended, the buffer is
    empty, [get_num_measurements] returns 0, and the controller holds the
    gate. *)
Theorem no_sample_before_first_start
    (w : Ppk2World) (serial_port : option string) (source_voltage : Z)
    (file : option string) (source_meter : bool)
    (s0 s : PowerProfiler F) (ls : list (label F)) :
  init w serial_port source_voltage file source_meter = Return s0 ->
  forallb no_start ls = true ->
  exec get_samples ls s0 = Some s ->
  appended s = 0%nat
  /\ current_measurements s = []
  /\ fst (get_num_measurements s) = Return 0%Z
  /\ (1 <= measure_lock s)%nat.
Proof.
  intros Hinit Hls Hrun.
  destruct (init_idle _ _ _ _ _ Hinit) as [H0 _].
  assert (H : idle_inv s).
  { eapply exec_invariant; [ | exact Hls | exact H0 | exact Hrun ].
    apply idle_inv_step. }
  destruct H as (_ & Hk & Hbuf & Hlog).
  rewrite get_num_measurements_run, Hbuf. cbn. auto.
Qed.

End BeforeFirstStart.

Lemma probed_run :
  exec Bench.get_samples (Bench.probe Q) (Bench.idle Q) = Some (probed Q).
Proof. vm_compute. reflexivity. Qed.

Lemma no_sample_before_first_start_witness :
  appended (probed Q) = 0%nat
  /\ current_measurements (probed Q) = []
  /\ fst (get_num_measurements (probed Q)) = Return 0%Z
  /\ (1 <= measure_lock (probed Q))%nat.
Proof.
  apply (@no_sample_before_first_start Q _ Bench.get_samples
           Bench.world None 3300%Z None true (Bench.idle Q) (probed Q)
           (Bench.probe Q)).
  - reflexivity.
  - vm_compute. reflexivity.
  - vm_compute. reflexivity.
Defined.

(** ** Teardown *)

Section Teardown.

Context {F : Type} {num : PyNumber F}.
Variable get_samples : list byte -> list Z.

(** Once [del self.ppk2] has run, [delete_power_profiler] raises at line
    101: [stop_measuring] reads the attribute that is gone. *)
Lemma delete_after_del_raises (now : F) (s : PowerProfiler F) :
  ppk2 s = Ppk2Deleted ->
  fst (run_call (DeletePowerProfiler now) s) = Raise AttributeError.
Proof.
  destruct s as [m k st p v buf t0 t1 th fn b c lg].
  cbn [ppk2]. intros ->. reflexivity.
Qed.

(** While the controller waits in [join()] and the thread waits for the
    lock that the controller holds, no step is enabled: the call never
    returns. *)
Lemma join_waits_forever (s : PowerProfiler F) (l : label F) :
  ctl s = CtlJoining ->
  bg s = BgAcquire ->
  (1 <= measure_lock s)%nat ->
  sys_step get_samples l s = None.
Proof.
  intros Hc Hb Hk. destruct l as [c | d |]; cbn [sys_step].
  - rewrite Hc. reflexivity.
  - unfold measurement_loop_step. rewrite Hb.
    destruct (measure_lock s); [lia | reflexivity].
  - rewrite Hc, Hb. reflexivity.
Qed.

End Teardown.

(** C8, on the code: the first teardown of [teardown_run] completes and
    deletes the attribute [ppk2] once; a second [delete_power_profiler]
    then raises [AttributeError] instead of doing nothing. *)
Theorem second_teardown_raises :
  exec Bench.get_samples teardown_run (Bench.idle Q) = Some torn_down
  /\ ctl torn_down = CtlReady
  /\ bg torn_down = BgExit
  /\ ppk2 torn_down = Ppk2Deleted
  /\ count_occ event_eq_dec (log torn_down) EvDelPpk2 = 1%nat
  /\ fst (run_call (DeletePowerProfiler 9) torn_down) = Raise AttributeError
  /\ sys_step Bench.get_samples (Controller (DeletePowerProfiler 9)) torn_down
     = Some (snd (run_call (DeletePowerProfiler 9) torn_down)).
Proof.
  repeat (apply conj; [vm_compute; reflexivity|]).
  vm_compute. reflexivity.
Qed.

(** The teardown of [stopped_run], called after [stop_measuring] when the
    thread is back at its [with] statement, reaches [join()] and stays
    there: no step is enabled. *)
Lemma teardown_after_stop_hangs :
  exists s : PowerProfiler Q,
    exec Bench.get_samples stopped_run (Bench.idle Q) = Some s
    /\ ctl s = CtlJoining
    /\ forall l : label Q, sys_step Bench.get_samples l s = None.
Proof.
  eexists. split; [vm_compute; reflexivity|].
  split; [reflexivity|].
  intros l. apply join_waits_forever; [reflexivity | reflexivity | cbn; lia].
Qed.

(** * The rest of the module: properties *)

(** ** [_average_samples] *)

Lemma py_len_skipn (l : list Z) (k : nat) :
  py_len (skipn k l) = Z.max 0 (py_len l - Z.of_nat k).
Proof. unfold py_len. rewrite length_skipn. lia. Qed.

Lemma range_from_nonempty (fuel : nat) (val stop step : Z) :
  (0 < step)%Z ->
  range_from fuel val stop step <> [] -> (val < stop)%Z.
Proof.
  intros Hs. destruct fuel as [|fuel]; cbn [range_from]; [congruence|].
  destruct (0 <? step)%Z eqn:E; [|apply Z.ltb_ge in E; lia].
  destruct (val <? stop)%Z eqn:T; [|congruence].
  intros _. apply Z.ltb_lt. exact T.
Qed.

Lemma range_from_past (fuel : nat) (val stop step : Z) :
  (0 < step)%Z -> (stop <= val)%Z -> range_from fuel val stop step = [].
Proof.
  intros Hs Hv. destruct fuel as [|fuel]; cbn [range_from]; [reflexivity|].
  replace (0 <? step)%Z with true by (symmetry; apply Z.ltb_lt; exact Hs).
  replace (val <? stop)%Z with false by (symmetry; apply Z.ltb_ge; exact Hv).
  reflexivity.
Qed.

(** The chunks cut from index [val] on: put together they are the list
    from [val] on, all are full but the last, and they are as many as the
    division says. *)
Lemma chunks_from (l : list Z) (w : Z) (fuel : nat) (val : Z) :
  (0 < w)%Z -> (0 <= val)%Z ->
  (py_len l - val <= Z.of_nat fuel)%Z ->
  List.concat (map (fun v => py_slice l v (v + w))
              (range_from fuel val (py_len l) w))
  = skipn (Z.to_nat val) l
  /\ full_but_last (Z.to_nat w)
       (map (fun v => py_slice l v (v + w))
            (range_from fuel val (py_len l) w))
  /\ Z.of_nat (List.length (range_from fuel val (py_len l) w))
     = Z.max 0 ((py_len l - val + w - 1) / w).
Proof.
  intros Hw. revert val.
  assert (Hpast : forall val : Z,
             (0 <= val)%Z -> (py_len l <= val)%Z ->
             skipn (Z.to_nat val) l = []
             /\ Z.max 0 ((py_len l - val + w - 1) / w) = 0%Z).
  { intros val H0 Hge. split.
    - apply skipn_all2. unfold py_len in Hge. lia.
    - assert ((py_len l - val + w - 1) / w < 1)%Z
        by (apply Z.div_lt_upper_bound; lia).
      lia. }
  induction fuel as [|fuel IH]; intros val H0 Hfuel; cbn [range_from].
  - destruct (Hpast val H0) as [-> ->]; [lia|]. cbn. auto.
  - replace (0 <? w)%Z with true by (symmetry; apply Z.ltb_lt; exact Hw).
    destruct (val <? py_len l)%Z eqn:T.
    + apply Z.ltb_lt in T.
      destruct (IH (val + w)%Z) as (Hcat & Hfull & Hcount); [lia | lia |].
      cbn [map List.concat List.length].
      assert (Hslice : py_slice l val (val + w)
                       = firstn (Z.to_nat w) (skipn (Z.to_nat val) l)).
      { unfold py_slice. f_equal. f_equal. lia. }
      assert (Hlen : Z.of_nat (List.length (py_slice l val (val + w)))
                     = Z.min w (py_len l - val)).
      { rewrite Hslice, length_firstn, length_skipn.
        unfold py_len in *. lia. }
      split; [|split].
      * rewrite Hcat, Hslice.
        replace (Z.to_nat (val + w)) with (Z.to_nat w + Z.to_nat val)%nat
          by lia.
        rewrite <- skipn_skipn. apply firstn_skipn.
      * cbn [full_but_last].
        destruct (map _ (range_from fuel (val + w) (py_len l) w))
          as [|c rest] eqn:R.
        -- lia.
        -- split; [|exact Hfull].
           assert (val + w < py_len l)%Z.
           { apply (range_from_nonempty fuel (val + w) (py_len l) Hw).
             intros E. rewrite E in R. discriminate. }
           lia.
      * rewrite Nat2Z.inj_succ, Hcount.
        replace (py_len l - val + w - 1)%Z
          with ((py_len l - (val + w) + w - 1) + 1 * w)%Z by lia.
        rewrite Z.div_add by lia.
        assert (0 <= (py_len l - (val + w) + w - 1) / w)%Z
          by (apply Z.div_pos; lia).
        lia.
    + apply Z.ltb_ge in T.
      destruct (Hpast val H0 T) as [-> ->]. cbn. auto.
Qed.

Section AverageSamplesProperties.

Context {F : Type} {num : PyNumber F}.

Lemma chunk_averages_full (w : nat) (chunks : list (list Z)) :
  (1 <= w)%nat ->
  full_but_last w chunks ->
  @chunk_averages F num chunks = Return (map mean chunks).
Proof.
  intros Hw. induction chunks as [|c rest IH]; [reflexivity|].
  intros H. cbn [full_but_last] in H. cbn [chunk_averages map].
  assert (Hc : (1 <= List.length c)%nat /\ full_but_last w rest).
  { destruct rest as [|c' rest]; [split; [lia | exact I] |].
    destruct H as [-> H]. auto. }
  destruct Hc as [Hc Hrest].
  unfold chunk_average.
  destruct (py_len c =? 0)%Z eqn:E.
  - apply Z.eqb_eq in E. unfold py_len in E. lia.
  - cbn [obind]. rewrite (IH Hrest). reflexivity.
Qed.

(** X1.  [_average_samples] with a positive window cuts the list into
    consecutive chunks, all of [window_size] elements but the last, which
    has at least one, and returns the mean of each: [ceil(len/window_size)]
    of them, in order, and no division by zero. *)
Theorem average_samples_windows (l : list Z) (window_size : Z) :
  (0 < window_size)%Z ->
  exists chunks : list (list Z),
    chunks_of l window_size = Return chunks
    /\ List.concat chunks = l
    /\ full_but_last (Z.to_nat window_size) chunks
    /\ Z.of_nat (List.length chunks)
       = ((py_len l + window_size - 1) / window_size)%Z
    /\ @_average_samples F num l window_size = Return (map mean chunks).
Proof.
  intros Hw.
  destruct (@chunks_from l window_size (Z.abs_nat (py_len l)) 0%Z Hw
              (Z.le_refl 0))
    as (Hcat & Hfull & Hcount).
  { unfold py_len. lia. }
  assert (Hz : (window_size =? 0)%Z = false) by (apply Z.eqb_neq; lia).
  exists (map (fun v => py_slice l v (v + window_size))
            (range_from (Z.abs_nat (py_len l)) 0 (py_len l) window_size)).
  unfold _average_samples, chunks_of, py_range. rewrite Hz. cbn [obind].
  split; [reflexivity|]. split; [exact Hcat|]. split; [exact Hfull|].
  split.
  - rewrite length_map, Hcount.
    replace (py_len l - 0 + window_size - 1)%Z
      with (py_len l + window_size - 1)%Z by lia.
    assert (0 <= (py_len l + window_size - 1) / window_size)%Z
      by (apply Z.div_pos; unfold py_len; lia).
    lia.
  - apply (chunk_averages_full (w := Z.to_nat window_size)); [lia|].
    exact Hfull.
Qed.

(** X2.  A window of zero makes [_average_samples] raise [ValueError] (from
    [range]); a negative window returns no average at all, whatever the
    samples. *)
Theorem average_samples_bad_window (l : list Z) (window_size : Z) :
  (window_size <= 0)%Z ->
  @_average_samples F num l window_size
  = if (window_size =? 0)%Z then Raise ValueError else Return [].
Proof.
  intros Hw. unfold _average_samples, chunks_of, py_range.
  destruct (window_size =? 0)%Z eqn:E; [reflexivity|].
  apply Z.eqb_neq in E. cbn [obind].
  destruct (Z.abs_nat (py_len l)) as [|fuel]; [reflexivity|].
  cbn [range_from].
  replace (0 <? window_size)%Z with false by (symmetry; apply Z.ltb_ge; lia).
  replace (py_len l <? 0)%Z with false
    by (symmetry; apply Z.ltb_ge; unfold py_len; lia).
  reflexivity.
Qed.

(** X3.  A window that takes in the whole list gives one average, the mean of
    the list. *)
Theorem average_samples_one_window (l : list Z) (window_size : Z) :
  l <> [] ->
  (py_len l <= window_size)%Z ->
  @_average_samples F num l window_size = Return [mean l].
Proof.
  intros Hl Hw.
  assert (Hn : (0 < py_len l)%Z).
  { unfold py_len. destruct l; [congruence | cbn [List.length]; lia]. }
  unfold _average_samples, chunks_of, py_range.
  replace (window_size =? 0)%Z with false by (symmetry; apply Z.eqb_neq; lia).
  cbn [obind].
  destruct (Z.abs_nat (py_len l)) as [|fuel] eqn:E; [lia|].
  cbn [range_from].
  replace (0 <? window_size)%Z with true by (symmetry; apply Z.ltb_lt; lia).
  replace (0 <? py_len l)%Z with true by (symmetry; apply Z.ltb_lt; lia).
  rewrite (@range_from_past fuel (0 + window_size)%Z (py_len l) window_size)
    by lia.
  cbn [map chunk_averages].
  assert (Hs : py_slice l 0%Z (0 + window_size)%Z = l).
  { unfold py_slice. cbn [Z.to_nat skipn]. apply firstn_all2.
    unfold py_len in Hw. lia. }
  rewrite Hs. unfold chunk_average.
  replace (py_len l =? 0)%Z with false by (symmetry; apply Z.eqb_neq; lia).
  reflexivity.
Qed.

End AverageSamplesProperties.

(** ** What the calls leave alone *)

Section Calls.

Context {F : Type} {num : PyNumber F}.
Variable get_samples : list byte -> list Z.

(** X4.  The aggregates, [get_num_measurements] and
    [get_measurement_duration_s] only read: whether they return or raise,
    every attribute is afterwards what it was, the level of the lock
    included. *)
Theorem reads_change_nothing (c : call F) (s : PowerProfiler F) :
  is_read c = true -> with_log_of s (snd (run_call c s)) = s.
Proof.
  destruct s as [m k st p v buf t0 t1 th fn b cp lg].
  destruct c; try discriminate; intros _;
    destruct buf as [|x buf]; py_eval; reflexivity.
Qed.

Lemma switch_with_device (m : M F bool) (cmd : command)
    (s : PowerProfiler F) (port : string) :
  In (m, cmd) switches ->
  ppk2 s = Ppk2Obj port ->
  m s = (Return true,
         set_log (EvRelease (measure_lock s) :: EvDriver cmd
                  :: EvAcquire (S (measure_lock s)) :: log s) s).
Proof.
  destruct s as [ms k st p v buf t0 t1 th fn b cp lg].
  cbn [ppk2]. intros Hin ->.
  cbn [switches In] in Hin.
  destruct Hin as [E | [E | [E | [E | []]]]];
    injection E as <- <-; reflexivity.
Qed.

Lemma switch_after_del (m : M F bool) (cmd : command)
    (s : PowerProfiler F) :
  In (m, cmd) switches ->
  ppk2 s = Ppk2Deleted ->
  fst (m s) = Raise AttributeError.
Proof.
  destruct s as [ms k st p v buf t0 t1 th fn b cp lg].
  cbn [ppk2]. intros Hin ->.
  cbn [switches In] in Hin.
  destruct Hin as [E | [E | [E | [E | []]]]];
    injection E as <- <-; reflexivity.
Qed.

(** A call does not touch [self.ppk2]; only the end of a teardown deletes
    it. *)
Lemma run_call_ppk2 (c : call F) (s : PowerProfiler F) :
  ppk2 (snd (run_call c s)) = ppk2 s.
Proof.
  destruct s as [m k st p v buf t0 t1 th fn b cp lg].
  destruct c; destruct buf as [|x buf]; py_eval; reflexivity.
Qed.

Lemma delete_leave_ppk2 (s : PowerProfiler F) :
  ppk2 (snd (delete_leave s)) = ppk2 s
  \/ ppk2 (snd (delete_leave s)) = Ppk2Deleted.
Proof.
  destruct s as [m k st p v buf t0 t1 th fn b cp lg].
  py_eval; auto.
Qed.

Lemma delete_joined_ppk2 (s : PowerProfiler F) :
  ppk2 (snd (delete_joined s)) = ppk2 s.
Proof.
  destruct s as [m k st p v buf t0 t1 th fn b cp lg]. reflexivity.
Qed.

(** One poll with the gate free: the flag and the level stay, and the
    decoded samples go to the end of the buffer when there is a driver. *)
Lemma poll_effect (d : list byte) (s : PowerProfiler F) :
  measure_lock s = 0%nat ->
  measuring (snd (poll get_samples d s)) = measuring s
  /\ measure_lock (snd (poll get_samples d s)) = 0%nat
  /\ ppk2 (snd (poll get_samples d s)) = ppk2 s
  /\ current_measurements (snd (poll get_samples d s))
     = current_measurements s
       ++ match ppk2 s with
          | Ppk2Obj _ => decoded get_samples d
          | _ => []
          end.
Proof.
  destruct s as [m k st p v buf t0 t1 th fn b cp lg].
  cbn [measure_lock]. intros ->.
  destruct p; destruct d as [|x d];
    cbn [ppk2 decoded current_measurements measuring measure_lock];
    rewrite ?app_nil_r; repeat apply conj; vm_compute; reflexivity.
Qed.

(** A step of the background thread never touches the flag, the level of
    the lock or [self.ppk2], and only ever adds to the end of the
    buffer. *)
Lemma background_step_effect (d : list byte) (s s' : PowerProfiler F) :
  sys_step get_samples (Background d) s = Some s' ->
  measuring s' = measuring s
  /\ measure_lock s' = measure_lock s
  /\ ppk2 s' = ppk2 s
  /\ exists suffix : list Z,
       current_measurements s' = current_measurements s ++ suffix.
Proof.
  cbn [sys_step]. unfold measurement_loop_step.
  assert (Same : forall pc : bg_pc,
             measuring (set_bg pc s) = measuring s
             /\ measure_lock (set_bg pc s) = measure_lock s
             /\ ppk2 (set_bg pc s) = ppk2 s
             /\ exists suffix : list Z,
                  current_measurements (set_bg pc s)
                  = current_measurements s ++ suffix).
  { intros pc. repeat split. exists []. cbn. symmetry. apply app_nil_r. }
  destruct (bg s); try discriminate.
  - intros [= <-]. apply Same.
  - destruct (measure_lock s) eqn:Hk; [|discriminate].
    destruct (poll_effect d s Hk) as (Hm & Hl & Hp & Hb).
    destruct (poll get_samples d s) as [[u|e] s1]; cbn [snd] in *;
      intros [= <-]; cbn; repeat split; eauto.
  - intros [= <-]. apply Same.
Qed.

Lemma controller_step_ppk2 (c : call F) (s s' : PowerProfiler F) :
  sys_step get_samples (Controller c) s = Some s' ->
  ppk2 s' = ppk2 s \/ ppk2 s' = Ppk2Deleted.
Proof.
  cbn [sys_step]. destruct (ctl s); [|discriminate]. intros H.
  pose proof (run_call_ppk2 c s) as E.
  destruct (run_call c s) as [r s1]. cbn [snd] in E.
  destruct c; try (injection H as <-; left; exact E).
  destruct r as [u|e]; [|injection H as <-; left; exact E].
  destruct (measurement_thread s1); injection H as <-.
  - left. exact E.
  - rewrite <- E. apply delete_leave_ppk2.
Qed.

Lemma join_step_ppk2 (s s' : PowerProfiler F) :
  sys_step get_samples JoinReturns s = Some s' ->
  ppk2 s' = ppk2 s \/ ppk2 s' = Ppk2Deleted.
Proof.
  cbn [sys_step]. destruct (ctl s); [discriminate|].
  destruct (bg s); try discriminate. intros [= <-].
  unfold bind.
  pose proof (delete_joined_ppk2 (set_ctl CtlReady s)) as E1.
  destruct (delete_joined (set_ctl CtlReady s)) as [[u|e] s1];
    cbn [snd] in *.
  - destruct (delete_leave_ppk2 s1) as [E | E]; rewrite E; auto.
  - auto.
Qed.

(** Every step keeps [sound]. *)
Lemma sound_step (l : label F) (s s' : PowerProfiler F) :
  sound s -> sys_step get_samples l s = Some s' -> sound s'.
Proof.
  intros [Hg Hp] Hstep.
  assert (P : ppk2 s' = ppk2 s \/ ppk2 s' = Ppk2Deleted ->
              ppk2 s' <> Ppk2None).
  { intros [E | E]; rewrite E; [exact Hp | discriminate]. }
  destruct l as [c | d |].
  - split; [|apply P; eapply controller_step_ppk2; exact Hstep].
    apply controller_step_effect in Hstep as [_ (_ & E)].
    intros H.
    destruct c; cbn in E;
      first [ destruct E as (B & C & D) | destruct E as (B & E) ];
      try congruence; try (rewrite C; lia);
      rewrite C; apply Hg; congruence.
  - destruct (background_step_effect _ _ Hstep) as (Hm & Hk & Hq & _).
    split; [rewrite Hm, Hk; exact Hg | rewrite Hq; exact Hp].
  - split; [|apply P; apply join_step_ppk2; exact Hstep].
    apply join_step_effect in Hstep as (_ & B & C & _).
    rewrite B, C. exact Hg.
Qed.

Lemma init_sound (w : Ppk2World) (serial_port : option string)
    (source_voltage : Z) (file : option string) (source_meter : bool)
    (s0 : PowerProfiler F) :
  init w serial_port source_voltage file source_meter = Return s0 ->
  sound s0.
Proof.
  intros H. destruct (init_returns _ _ _ _ _ H) as (p & _ & _ & _ & _ & ->).
  split; cbn; [lia | discriminate].
Qed.

Lemma reached_sound (w : Ppk2World) (serial_port : option string)
    (source_voltage : Z) (file : option string) (source_meter : bool)
    (s0 s : PowerProfiler F) (ls : list (label F)) :
  init w serial_port source_voltage file source_meter = Return s0 ->
  exec get_samples ls s0 = Some s ->
  sound s.
Proof.
  intros Hinit Hrun.
  eapply (exec_invariant get_samples (@sound F) (fun _ => true));
    [ | | eapply init_sound; exact Hinit | exact Hrun ].
  - intros l u u' _. apply sound_step.
  - clear. induction ls as [|l ls IH]; [reflexivity | exact IH].
Qed.

Lemma no_runtime_error (c : call F) (s : PowerProfiler F) :
  (measuring s = false -> (1 <= measure_lock s)%nat) ->
  fst (run_call c s) <> Raise RuntimeError.
Proof.
  destruct s as [m k st p v buf t0 t1 th fn b cp lg].
  cbn [measuring measure_lock]. intros Hg.
  destruct m; [|destruct k as [|k]; [specialize (Hg eq_refl); lia|]];
    clear Hg; destruct c; destruct buf as [|x buf]; py_eval;
    intros H; discriminate H.
Qed.

(** X5.  On an object that a construction returned, whatever was called and
    scheduled since: the controller holds the gate whenever the object is
    not measuring, and no call raises [RuntimeError], so the bare
    [release()] of [start_measuring] never meets a lock that is not
    held. *)
Theorem release_never_fails
    (w : Ppk2World) (serial_port : option string) (source_voltage : Z)
    (file : option string) (source_meter : bool)
    (s0 s : PowerProfiler F) (ls : list (label F)) (c : call F) :
  init w serial_port source_voltage file source_meter = Return s0 ->
  exec get_samples ls s0 = Some s ->
  (measuring s = false -> (1 <= measure_lock s)%nat)
  /\ fst (run_call c s) <> Raise RuntimeError.
Proof.
  intros Hinit Hrun.
  destruct (reached_sound _ _ _ _ _ _ Hinit Hrun) as [Hg _].
  split; [exact Hg | apply no_runtime_error; exact Hg].
Qed.

(** X6.  On an object that a construction returned, whatever was called and
    scheduled since, [enable_power], [disable_power], [use_source_meter]
    and [use_ampere_meter] never return [False]: with the driver they send
    their one command and return [True], and once a teardown has deleted
    [self.ppk2] they raise [AttributeError]. *)
Theorem switches_never_return_false
    (w : Ppk2World) (serial_port : option string) (source_voltage : Z)
    (file : option string) (source_meter : bool)
    (s0 s : PowerProfiler F) (ls : list (label F))
    (m : M F bool) (cmd : command) :
  init w serial_port source_voltage file source_meter = Return s0 ->
  exec get_samples ls s0 = Some s ->
  In (m, cmd) switches ->
  (fst (m s) = Return true
   /\ emitted s (snd (m s))
      = [EvAcquire (S (measure_lock s)); EvDriver cmd;
         EvRelease (measure_lock s)]
   /\ with_log_of s (snd (m s)) = s)
  \/ (ppk2 s = Ppk2Deleted /\ fst (m s) = Raise AttributeError).
Proof.
  intros Hinit Hrun Hin.
  destruct (reached_sound _ _ _ _ _ _ Hinit Hrun) as [_ Hp].
  destruct (ppk2 s) as [| |port] eqn:E; [|congruence|].
  - right. split; [reflexivity|]. eapply switch_after_del; eauto.
  - left. rewrite (switch_with_device s Hin E). cbn [fst snd].
    split; [reflexivity|]. split.
    + erewrite emitted_new_events with
        (l := [EvRelease (measure_lock s); EvDriver cmd;
               EvAcquire (S (measure_lock s))]); reflexivity.
    + destruct s; reflexivity.
Qed.

End Calls.

(** ** The gate after repeated [stop_measuring] *)

Section RepeatedStop.

Context {F : Type} {num : PyNumber F}.
Variable get_samples : list byte -> list Z.

(** Whatever the state, and also when the driver call raises, a
    [stop_measuring] leaves the lock one level higher, the flag down and
    the buffer as it was. *)
Lemma stop_measuring_adds_hold (now : F) (s : PowerProfiler F) :
  measure_lock (snd (stop_measuring now s)) = S (measure_lock s)
  /\ measuring (snd (stop_measuring now s)) = false
  /\ current_measurements (snd (stop_measuring now s))
     = current_measurements s.
Proof.
  destruct s as [m k st p v buf t0 t1 th fn b c lg].
  py_eval; repeat split.
Qed.

(** A step other than a [start_measuring] never gives back a level: it
    adds one and lowers the flag when it is a [stop_measuring], and leaves
    level and flag alone otherwise. *)
Lemma start_free_step (l : label F) (s u : PowerProfiler F) :
  no_start l = true ->
  sys_step get_samples l s = Some u ->
  measure_lock u
  = (measure_lock s + (if adds_hold l then 1 else 0))%nat
  /\ measuring u = (if adds_hold l then false else measuring s).
Proof.
  intros Hok Hstep. destruct l as [c | d |].
  - destruct (controller_step_effect get_samples _ _ Hstep) as [_ [_ E]].
    destruct c; try discriminate Hok; cbn [adds_hold];
      destruct E as (Hm & Hk & _); rewrite Hm, Hk; split; try reflexivity;
        lia.
  - destruct (background_step_effect get_samples _ _ Hstep)
      as (Hm & Hk & _).
    cbn [adds_hold]. rewrite Hm, Hk. split; [lia | reflexivity].
  - destruct (join_step_effect get_samples _ Hstep) as (_ & Hm & Hk & _).
    cbn [adds_hold]. rewrite Hm, Hk. split; [lia | reflexivity].
Qed.

Lemma exec_start_free (pre : list (label F)) (s s1 : PowerProfiler F) :
  forallb no_start pre = true ->
  exec get_samples pre s = Some s1 ->
  measure_lock s1
  = (measure_lock s + List.length (filter adds_hold pre))%nat
  /\ (measuring s = false \/ (1 <= List.length (filter adds_hold pre))%nat ->
      measuring s1 = false).
Proof.
  revert s. induction pre as [|l pre IH]; cbn [forallb exec filter];
    intros s Hok Hrun.
  - injection Hrun as <-. cbn [List.length]. split; [lia|].
    intros [H | H]; [exact H | lia].
  - apply andb_prop in Hok as [Hl Hpre].
    destruct (sys_step get_samples l s) as [u|] eqn:E; [|discriminate].
    destruct (start_free_step l s Hl E) as [Hk Hm].
    destruct (IH u Hpre Hrun) as [Hk1 Hm1].
    destruct (adds_hold l); cbn [List.length].
    + split; [lia|]. intros _. apply Hm1. left. exact Hm.
    + split; [lia|]. intros [H | H]; apply Hm1;
        [left; congruence | right; exact H].
Qed.

Lemma stops_add_holds (pre : list (label F)) :
  (List.length (filter is_stop pre)
   <= List.length (filter adds_hold pre))%nat.
Proof.
  induction pre as [|l pre IH]; [reflexivity|].
  destruct l as [c | d |]; [destruct c|..]; cbn; lia.
Qed.

(** C10.  Every [stop_measuring] adds one level to the controller's hold
    on the gate, whatever the state.  After two or more of them with no
    [start_measuring] in between, whatever else is called and however the
    thread is scheduled meanwhile, one [start_measuring] gives back one
    level only: the controller still holds the gate, and whatever is
    called and scheduled afterwards, the gate stays held, the background
    thread cannot enter its [with] block, and the buffer stays empty. *)
Theorem repeated_stop_keeps_gate_held
    (s s' : PowerProfiler F) (pre : list (label F)) (now : F)
    (ls : list (label F)) :
  forallb no_start pre = true ->
  (2 <= List.length (filter is_stop pre))%nat ->
  exec get_samples (pre ++ Controller (StartMeasuring now) :: ls) s
  = Some s' ->
  (forall (t : F) (u : PowerProfiler F),
     measure_lock (snd (stop_measuring t u)) = S (measure_lock u))
  /\ exists s1 s2 : PowerProfiler F,
       exec get_samples pre s = Some s1
       /\ measure_lock s1
          = (measure_lock s + List.length (filter adds_hold pre))%nat
       /\ measuring s1 = false
       /\ sys_step get_samples (Controller (StartMeasuring now)) s1
          = Some s2
       /\ measure_lock s2 = (measure_lock s1 - 1)%nat
       /\ exec get_samples ls s2 = Some s'
       /\ (1 <= measure_lock s2)%nat
       /\ current_measurements s2 = []
       /\ (1 <= measure_lock s')%nat
       /\ current_measurements s' = []
       /\ forall read_data : list byte,
            bg s' = BgAcquire ->
            measurement_loop_step get_samples read_data s' = None.
Proof.
  intros Hok Hlen Hrun.
  split; [intros t u; apply stop_measuring_adds_hold|].
  rewrite exec_app in Hrun.
  destruct (exec get_samples pre s) as [s1|] eqn:E1; [|discriminate].
  cbn [exec] in Hrun.
  destruct (sys_step get_samples (Controller (StartMeasuring now)) s1)
    as [s2|] eqn:E2; [|discriminate].
  pose proof (stops_add_holds pre) as Hadd.
  destruct (exec_start_free pre s Hok E1) as (Hk1 & Hm1).
  assert (Hm : measuring s1 = false) by (apply Hm1; right; lia).
  destruct (controller_step_effect get_samples _ _ E2)
    as (_ & _ & Hm2 & E).
  rewrite Hm in E. destruct E as (Hk2 & Hb2).
  assert (W2 : wedged s2).
  { unfold wedged. rewrite Hm2, Hb2, Hk2, Hk1. split; [reflexivity | lia]. }
  assert (W : wedged s').
  { eapply exec_invariant with (ok := fun _ => true);
      [ | | exact W2 | exact Hrun ].
    - intros l u u' _. apply wedged_step.
    - clear. induction ls as [|l ls IH]; [reflexivity | exact IH]. }
  assert (Hk' : (1 <= measure_lock s')%nat).
  { destruct W as [_ W]. destruct (measuring s'); lia. }
  exists s1, s2.
  repeat split; auto; try lia.
  - apply W.
  - intros d Hbg. unfold measurement_loop_step. rewrite Hbg.
    destruct (measure_lock s'); [lia | reflexivity].
Qed.

End RepeatedStop.

Lemma wedged_bench_run :
  exec Bench.get_samples (wedging Q) (Bench.sampling Q)
  = Some (wedged_bench Q).
Proof. vm_compute. reflexivity. Qed.

Lemma repeated_stop_keeps_gate_held_witness :
  (1 <= measure_lock (wedged_bench Q))%nat
  /\ current_measurements (wedged_bench Q) = []
  /\ forall read_data : list byte,
       bg (wedged_bench Q) = BgAcquire ->
       measurement_loop_step Bench.get_samples read_data (wedged_bench Q)
       = None.
Proof.
  assert (Hok : forallb no_start (stopping Q) = true) by reflexivity.
  assert (Hlen : (2 <= List.length (filter is_stop (stopping Q)))%nat)
    by (cbn; lia).
  assert (Hrun : exec Bench.get_samples
                   (stopping Q ++ Controller (StartMeasuring 13)
                      :: [Controller GetNumMeasurements;
                          Controller GetAverageCurrent])
                   (Bench.sampling Q)
                 = Some (wedged_bench Q)) by (vm_compute; reflexivity).
  destruct (@repeated_stop_keeps_gate_held Q _ Bench.get_samples
              (Bench.sampling Q) (wedged_bench Q) (stopping Q) 13
              [Controller GetNumMeasurements; Controller GetAverageCurrent]
              Hok Hlen Hrun)
    as (_ & s1 & s2 & _ & _ & _ & _ & _ & _ & _ & _ & Hk & Hbuf & Hbg).
  split; [|split]; assumption.
Defined.

(** ** The buffer over schedules *)

Section Buffer.

Context {F : Type} {num : PyNumber F}.
Variable get_samples : list byte -> list Z.

Lemma all_labels (ls : list (label F)) : forallb (fun _ => true) ls = true.
Proof. induction ls as [|l ls IH]; [reflexivity | exact IH]. Qed.

Lemma kept_step (B : list Z) (l : label F) (s s' : PowerProfiler F) :
  no_start l = true ->
  (exists suffix : list Z, current_measurements s = B ++ suffix) ->
  sys_step get_samples l s = Some s' ->
  exists suffix : list Z, current_measurements s' = B ++ suffix.
Proof.
  intros Hl [suffix Hu] Hstep.
  destruct l as [c | d |].
  - destruct (controller_step_effect get_samples _ _ Hstep) as [_ (_ & E)].
    exists suffix. rewrite <- Hu.
    destruct c; try discriminate Hl; cbn in E; apply E.
  - destruct (background_step_effect get_samples _ _ Hstep)
      as (_ & _ & _ & x & Hx).
    exists (suffix ++ x). rewrite Hx, Hu. symmetry. apply app_assoc.
  - destruct (join_step_effect get_samples _ Hstep) as (_ & _ & _ & E).
    exists suffix. rewrite E. exact Hu.
Qed.

(** X7.  Only [start_measuring] ever removes a sample: over any schedule
    without it, the buffer keeps what it held, in place, and at most grows
    at its end. *)
Theorem samples_kept_without_start
    (s s' : PowerProfiler F) (ls : list (label F)) :
  forallb no_start ls = true ->
  exec get_samples ls s = Some s' ->
  exists suffix : list Z,
    current_measurements s' = current_measurements s ++ suffix.
Proof.
  intros Hok Hrun.
  eapply (exec_invariant get_samples
            (fun u => exists suffix : list Z,
               current_measurements u = current_measurements s ++ suffix)
            no_start);
    [ apply kept_step | exact Hok | | exact Hrun ].
  exists []. symmetry. apply app_nil_r.
Qed.

Lemma held_step (B : list Z) (l : label F) (s s' : PowerProfiler F) :
  no_start l = true ->
  measuring s = false /\ (1 <= measure_lock s)%nat
  /\ current_measurements s = B ->
  sys_step get_samples l s = Some s' ->
  measuring s' = false /\ (1 <= measure_lock s')%nat
  /\ current_measurements s' = B.
Proof.
  intros Hok (Hm & Hk & Hb) Hstep.
  assert (U : unchanged_gate s s' ->
              measuring s' = false /\ (1 <= measure_lock s')%nat
              /\ current_measurements s' = B).
  { intros (_ & B1 & C & D). rewrite B1, C, D. auto. }
  destruct l as [c | d |].
  - destruct (controller_step_effect get_samples _ _ Hstep) as [_ (_ & E)].
    destruct c; try discriminate Hok; cbn in E;
      destruct E as (B1 & C & D); rewrite B1, C, D;
      repeat split; auto; lia.
  - apply U. apply (background_step_held get_samples d s Hk Hstep).
  - apply U. apply (join_step_effect get_samples _ Hstep).
Qed.

(** X8.  After [stop_measuring], whatever is called and scheduled until the
    next [start_measuring], the buffer is the one the stop found: the
    thread cannot add to it, and every read of the average returns the
    same value. *)
Theorem buffer_frozen_after_stop
    (s s' : PowerProfiler F) (t : F) (ls : list (label F)) :
  forallb no_start ls = true ->
  exec get_samples (Controller (StopMeasuring t) :: ls) s = Some s' ->
  current_measurements s' = current_measurements s
  /\ measuring s' = false
  /\ (1 <= measure_lock s')%nat
  /\ fst (get_average_current_mA s')
     = Return (spec_average_current_mA (current_measurements s)).
Proof.
  intros Hok Hrun. cbn [exec] in Hrun.
  destruct (sys_step get_samples (Controller (StopMeasuring t)) s)
    as [s1|] eqn:E1; [|discriminate].
  destruct (controller_step_effect get_samples _ _ E1)
    as (_ & _ & Hm & Hk & Hb).
  assert (H1 : measuring s1 = false /\ (1 <= measure_lock s1)%nat
               /\ current_measurements s1 = current_measurements s).
  { split; [exact Hm|]. split; [lia | exact Hb]. }
  assert (H : measuring s' = false /\ (1 <= measure_lock s')%nat
              /\ current_measurements s' = current_measurements s).
  { eapply (exec_invariant get_samples
              (fun u => measuring u = false /\ (1 <= measure_lock u)%nat
                        /\ current_measurements u = current_measurements s)
              no_start);
      [ apply held_step | exact Hok | exact H1 | exact Hrun ]. }
  destruct H as (Hm' & Hk' & Hb').
  rewrite get_average_current_mA_run. cbn [fst]. rewrite Hb'. auto.
Qed.

End Buffer.

(** ** A whole window *)

Section Window2.

Context {F : Type} {num : PyNumber F}.
Variable get_samples : list byte -> list Z.

Lemma modulo_fields (s s' : PowerProfiler F) :
  modulo_samples s' = modulo_samples s ->
  measuring s' = measuring s
  /\ measure_lock s' = measure_lock s
  /\ stop s' = stop s
  /\ ppk2 s' = ppk2 s
  /\ measurement_start_time s' = measurement_start_time s
  /\ measurement_stop_time s' = measurement_stop_time s
  /\ bg s' = bg s
  /\ ctl s' = ctl s.
Proof.
  destruct s, s'. unfold modulo_samples. cbn.
  intros E. injection E as -> -> -> -> -> -> -> -> -> -> ->.
  repeat split.
Qed.

Lemma polling_modulo (s s' : PowerProfiler F) :
  modulo_samples s' = modulo_samples s -> polling s -> polling s'.
Proof.
  intros E (Hk & Hb & Hs & port & Hp).
  destruct (@modulo_fields s s' E) as (_ & Ek & Es & Ep & _ & _ & Eb & _).
  unfold polling. rewrite Ek, Es, Ep, Eb. eauto.
Qed.

(** One turn of the loop with the gate free: the decoded samples are at
    the end of the buffer, and the thread is back at the test. *)
Lemma cycle_run (d : list byte) (s : PowerProfiler F) :
  polling s ->
  exists s1 : PowerProfiler F,
    exec get_samples (cycle d) s = Some s1
    /\ modulo_samples s1 = modulo_samples s
    /\ current_measurements s1
       = current_measurements s ++ decoded get_samples d.
Proof.
  destruct s as [m k st p v buf t0 t1 th fn b cp lg].
  unfold polling. cbn [measure_lock bg stop ppk2].
  intros (-> & -> & -> & port & ->).
  destruct d as [|x d].
  - eexists. split; [vm_compute; reflexivity|].
    split; [reflexivity|].
    cbn [decoded current_measurements]. rewrite app_nil_r. reflexivity.
  - eexists. split; [vm_compute; reflexivity|].
    split; reflexivity.
Qed.

Lemma polls_run (reads : list (list byte)) (s : PowerProfiler F) :
  polling s ->
  exists s' : PowerProfiler F,
    exec get_samples (flat_map cycle reads) s = Some s'
    /\ modulo_samples s' = modulo_samples s
    /\ current_measurements s'
       = current_measurements s ++ flat_map (decoded get_samples) reads.
Proof.
  revert s. induction reads as [|d reads IH]; intros s Hs.
  - exists s. cbn. rewrite app_nil_r. auto.
  - destruct (@cycle_run d s Hs) as (s1 & E1 & M1 & B1).
    destruct (IH s1 (@polling_modulo s s1 M1 Hs)) as (s' & E' & M' & B').
    exists s'. cbn [flat_map]. rewrite exec_app, E1.
    split; [exact E'|]. split; [congruence|].
    rewrite B', B1. symmetry. apply app_assoc.
Qed.

Lemma controller_step_plain (c : call F) (s : PowerProfiler F) :
  ctl s = CtlReady ->
  (forall now : F, c <> DeletePowerProfiler now) ->
  sys_step get_samples (Controller c) s = Some (snd (run_call c s)).
Proof.
  intros Hc Hd. cbn [sys_step]. rewrite Hc.
  destruct (run_call c s) as [r s1]. cbn [snd].
  destruct c; try reflexivity. contradiction (Hd now). reflexivity.
Qed.

Lemma stop_measuring_run (now : F) (s : PowerProfiler F) (port : string) :
  ppk2 s = Ppk2Obj port ->
  fst (stop_measuring now s) = Return tt
  /\ modulo_samples (snd (stop_measuring now s))
     = modulo_samples
         (set_measurement_stop_time (Some now)
            (set_measure_lock (S (measure_lock s))
               (set_measuring false s)))
  /\ current_measurements (snd (stop_measuring now s))
     = current_measurements s.
Proof.
  destruct s as [m k st p v buf t0 t1 th fn b cp lg].
  cbn [ppk2]. intros ->. destruct fn; repeat apply conj; reflexivity.
Qed.

(** X9.  A window on an object that is ready for one: after
    [start_measuring], any number of turns of the loop and
    [stop_measuring], the buffer holds the samples decoded from the reads
    of these turns, in order, none lost and none repeated, and nothing of
    what it held before; the time stamps are those of the two calls, and
    the object is ready for the next window. *)
Theorem window_collects_reads
    (s0 : PowerProfiler F) (t0 t1 : F) (reads : list (list byte)) :
  ready s0 ->
  exists s' : PowerProfiler F,
    exec get_samples (window_of t0 t1 reads) s0 = Some s'
    /\ current_measurements s' = flat_map (decoded get_samples) reads
    /\ measurement_start_time s' = Some t0
    /\ measurement_stop_time s' = Some t1
    /\ ready s'.
Proof.
  intros (Hm & Hk & Hb & Hs & Hc & port & Hp).
  unfold window_of. cbn [exec].
  rewrite (@controller_step_plain (StartMeasuring t0) s0 Hc)
    by (intros now; discriminate).
  cbn [run_call].
  pose proof (@start_measuring_idle_run F t0 s0 0%nat port Hm Hk Hp) as E0.
  destruct (start_measuring t0 s0) as [r s1]. cbn [snd].
  injection E0 as _ ->.
  match goal with
  | |- context [exec _ _ ?u] => set (s1 := u)
  end.
  assert (P1 : polling s1).
  { unfold polling, s1. cbn. rewrite Hb, Hs, Hp. eauto. }
  destruct (@polls_run reads s1 P1) as (s2 & E2 & M2 & B2).
  rewrite exec_app, E2. cbn [exec].
  destruct (@modulo_fields s1 s2 M2)
    as (F1 & F2 & F3 & F4 & F5 & F6 & F7 & F8).
  assert (Hc2 : ctl s2 = CtlReady) by (rewrite F8; exact Hc).
  assert (Hp2 : ppk2 s2 = Ppk2Obj port) by (rewrite F4; exact Hp).
  rewrite (@controller_step_plain (StopMeasuring t1) s2 Hc2)
    by (intros now; discriminate).
  cbn [run_call].
  destruct (@stop_measuring_run t1 s2 port Hp2) as (_ & M3 & B3).
  exists (snd (stop_measuring t1 s2)). split; [reflexivity|].
  generalize dependent (snd (stop_measuring t1 s2)). intros s3 M3 B3.
  destruct (@modulo_fields _ _ M3)
    as (G1 & G2 & G3 & G4 & G5 & G6 & G7 & G8).
  cbn [measuring measure_lock stop ppk2 measurement_start_time
       measurement_stop_time bg ctl set_measurement_stop_time
       set_measure_lock set_measuring]
    in G1, G2, G3, G4, G5, G6, G7, G8.
  split; [rewrite B3, B2; reflexivity|].
  split; [rewrite G5, F5; reflexivity|].
  split; [exact G6|].
  assert (K1 : measure_lock s1 = 0%nat) by reflexivity.
  assert (K2 : stop s1 = stop s0) by reflexivity.
  assert (K3 : bg s1 = bg s0) by reflexivity.
  assert (K4 : ctl s1 = ctl s0) by reflexivity.
  assert (K5 : ppk2 s1 = ppk2 s0) by reflexivity.
  unfold ready.
  split; [exact G1|].
  split; [rewrite G2, F2, K1; reflexivity|].
  split; [congruence|]. split; [congruence|]. split; [congruence|].
  exists port. congruence.
Qed.

End Window2.

(** ** The extremes, the average and the time stamps *)

Lemma sum_above (l : list Z) (m : Z) :
  (forall y : Z, In y l -> (m <= y)%Z) -> (m * py_len l <= py_sum l)%Z.
Proof.
  unfold py_len. induction l as [|x l IH]; intros H.
  - cbn. lia.
  - rewrite py_sum_cons. cbn [List.length]. rewrite Nat2Z.inj_succ.
    assert (m <= x)%Z by (apply H; left; reflexivity).
    assert (m * Z.of_nat (List.length l) <= py_sum l)%Z
      by (apply IH; intros y Hy; apply H; right; exact Hy).
    lia.
Qed.

Lemma sum_below (l : list Z) (m : Z) :
  (forall y : Z, In y l -> (y <= m)%Z) -> (py_sum l <= m * py_len l)%Z.
Proof.
  unfold py_len. induction l as [|x l IH]; intros H.
  - cbn. lia.
  - rewrite py_sum_cons. cbn [List.length]. rewrite Nat2Z.inj_succ.
    assert (x <= m)%Z by (apply H; left; reflexivity).
    assert (py_sum l <= m * Z.of_nat (List.length l))%Z
      by (apply IH; intros y Hy; apply H; right; exact Hy).
    lia.
Qed.

Section Extremes.

Context {F : Type} {num : PyNumber F}.

Lemma get_min_current_mA_run (s : PowerProfiler F) (m : Z) :
  py_min (current_measurements s) = Some m ->
  get_min_current_mA s
  = (Return (num_div (of_int m) (of_int 1000)), after_locked_read s).
Proof.
  destruct s as [ms k st p v buf t0 t1 th fn b cp lg].
  cbn [current_measurements]. destruct buf as [|x r]; [discriminate|].
  intros [= <-]. vm_compute. reflexivity.
Qed.

Lemma get_max_current_mA_run (s : PowerProfiler F) (m : Z) :
  py_max (current_measurements s) = Some m ->
  get_max_current_mA s
  = (Return (num_div (of_int m) (of_int 1000)), after_locked_read s).
Proof.
  destruct s as [ms k st p v buf t0 t1 th fn b cp lg].
  cbn [current_measurements]. destruct buf as [|x r]; [discriminate|].
  intros [= <-]. vm_compute. reflexivity.
Qed.

(** X10.  On a buffer that is not empty, [get_min_current_mA] and
    [get_max_current_mA] return a sample of the buffer over 1000: one that
    no sample is below, and one that no sample is above. *)
Theorem extremes_are_samples (s : PowerProfiler F) :
  current_measurements s <> [] ->
  exists lo hi : Z,
    fst (get_min_current_mA s) = Return (num_div (of_int lo) (of_int 1000))
    /\ fst (get_max_current_mA s)
       = Return (num_div (of_int hi) (of_int 1000))
    /\ In lo (current_measurements s)
    /\ In hi (current_measurements s)
    /\ forall y : Z,
         In y (current_measurements s) -> (lo <= y <= hi)%Z.
Proof.
  intros Hne.
  destruct (py_min (current_measurements s)) as [lo|] eqn:Elo;
    [|destruct (current_measurements s); [congruence | discriminate]].
  destruct (py_max (current_measurements s)) as [hi|] eqn:Ehi;
    [|destruct (current_measurements s); [congruence | discriminate]].
  exists lo, hi.
  rewrite (get_min_current_mA_run s Elo), (get_max_current_mA_run s Ehi).
  destruct (py_min_spec _ Elo) as [Hin Hle].
  destruct (py_max_spec _ Ehi) as [Hin' Hge].
  repeat split; auto.
Qed.

(** X12.  While a time stamp is missing, [get_average_power_consumption_mWh]
    and [get_average_charge_mC] raise the [TypeError] of
    [get_measurement_duration_s], whatever the buffer holds, and give back
    both levels of the lock they took. *)
Theorem energy_and_charge_need_both_stamps (s : PowerProfiler F) :
  measurement_start_time s = None \/ measurement_stop_time s = None ->
  (fst (get_average_power_consumption_mWh s) = Raise TypeError
   /\ with_log_of s (snd (get_average_power_consumption_mWh s)) = s)
  /\ (fst (get_average_charge_mC s) = Raise TypeError
      /\ with_log_of s (snd (get_average_charge_mC s)) = s).
Proof.
  destruct s as [ms k st p v buf t0 t1 th fn b cp lg].
  cbn [measurement_start_time measurement_stop_time].
  intros [-> | ->]; destruct buf as [|x r];
    [destruct t1 | destruct t1 | destruct t0 | destruct t0];
    repeat apply conj; vm_compute; reflexivity.
Qed.

End Extremes.

(** X11.  In exact arithmetic the average current lies between the minimum and
    the maximum current, on every buffer that is not empty. *)
Theorem average_between_extremes (s : PowerProfiler Q) :
  current_measurements s <> [] ->
  exists lo av hi : Q,
    fst (get_min_current_mA s) = Return lo
    /\ fst (get_average_current_mA s) = Return av
    /\ fst (get_max_current_mA s) = Return hi
    /\ lo <= av /\ av <= hi.
Proof.
  intros Hne.
  destruct (py_min (current_measurements s)) as [lo|] eqn:Elo;
    [|destruct (current_measurements s); [congruence | discriminate]].
  destruct (py_max (current_measurements s)) as [hi|] eqn:Ehi;
    [|destruct (current_measurements s); [congruence | discriminate]].
  rewrite (get_min_current_mA_run s Elo), (get_max_current_mA_run s Ehi),
    get_average_current_mA_run.
  cbn [fst]. do 3 eexists.
  split; [reflexivity|]. split; [reflexivity|]. split; [reflexivity|].
  destruct (py_min_spec _ Elo) as [_ Hle].
  destruct (py_max_spec _ Ehi) as [_ Hge].
  pose proof (sum_above _ Hle) as Hlo.
  pose proof (sum_below _ Hge) as Hhi.
  assert (Hn : (0 < py_len (current_measurements s))%Z).
  { unfold py_len. destruct (current_measurements s);
      [congruence | cbn [List.length]; lia]. }
  unfold spec_average_current_mA.
  destruct (current_measurements s) as [|x r] eqn:El; [congruence|].
  rewrite <- El in *. clear El x r.
  cbn [num_div of_int PyNumber_Q].
  assert (Hpos : 0 < inject_Z (py_len (current_measurements s))).
  { rewrite <- (Zlt_Qlt 0). exact Hn. }
  assert (Hk : 0 <= / inject_Z 1000) by (vm_compute; discriminate).
  split; unfold Qdiv at 1 3; apply Qmult_le_compat_r; try exact Hk.
  - apply Qle_shift_div_l; [exact Hpos|].
    rewrite <- inject_Z_mult, <- Zle_Qle. exact Hlo.
  - apply Qle_shift_div_r; [exact Hpos|].
    rewrite <- inject_Z_mult, <- Zle_Qle. exact Hhi.
Qed.

(** X13.  In a second window the duration is the stop time of the window before
    minus the new start time: with a clock that has moved on it is
    negative until the next [stop_measuring]. *)
Theorem duration_is_stale_after_restart
    (s : PowerProfiler Q) (t1 t2 : Q) (k : nat) (port : string) :
  measuring s = false ->
  measure_lock s = S k ->
  ppk2 s = Ppk2Obj port ->
  measurement_stop_time s = Some t1 ->
  t1 < t2 ->
  exists d : Q,
    fst (get_measurement_duration_s (snd (start_measuring t2 s)))
    = Return d
    /\ d == t1 - t2
    /\ d < 0.
Proof.
  intros Hm Hk Hp Ht Hlt.
  rewrite (start_measuring_idle_run t2 s Hm Hk Hp). cbn [snd].
  destruct s as [ms l st p v buf t0 t1' th fn b cp lg].
  cbn [measurement_stop_time] in Ht. subst t1'.
  exists (t1 - t2). split; [reflexivity|]. split; [reflexivity|].
  apply (Qplus_lt_l _ _ t2). ring_simplify. exact Hlt.
Qed.

(** ** Teardown, in general *)

Section TeardownRuns.

Context {F : Type} {num : PyNumber F}.
Variable get_samples : list byte -> list Z.

(** X14.  A teardown called while the thread stands at its [with] statement
    never returns: [delete_power_profiler] raises the stop flag, stops the
    measurement, which leaves the lock held one level higher, and waits in
    [join()]; from there no step of either thread is enabled, so no
    schedule continues. *)
Theorem teardown_hangs_with_thread_at_gate
    (s : PowerProfiler F) (now : F) (port : string) :
  ctl s = CtlReady ->
  bg s = BgAcquire ->
  measurement_thread s = true ->
  ppk2 s = Ppk2Obj port ->
  exists s1 : PowerProfiler F,
    sys_step get_samples (Controller (DeletePowerProfiler now)) s = Some s1
    /\ ctl s1 = CtlJoining
    /\ stop s1 = true
    /\ measure_lock s1 = S (measure_lock s)
    /\ ppk2 s1 = Ppk2Obj port
    /\ forall (l : label F) (ls : list (label F)),
         exec get_samples (l :: ls) s1 = None.
Proof.
  destruct s as [ms k st p v buf t0 t1 th fn b cp lg].
  cbn [ctl bg measurement_thread ppk2]. intros -> -> -> ->.
  destruct fn as [f|].
  - eexists. split; [vm_compute; reflexivity|].
    do 4 (split; [reflexivity|]).
    intros l ls. cbn [exec].
    rewrite join_waits_forever;
      [reflexivity | reflexivity | reflexivity | cbn; lia].
  - eexists. split; [vm_compute; reflexivity|].
    do 4 (split; [reflexivity|]).
    intros l ls. cbn [exec].
    rewrite join_waits_forever;
      [reflexivity | reflexivity | reflexivity | cbn; lia].
Qed.

(** X15.  A teardown called while the thread sleeps or is about to test the
    stop flag completes: the thread sees the flag and ends, [join()]
    returns, the power of the device under test is switched off and
    [self.ppk2] is deleted, in this order.  The buffer is kept, the stop
    time is that of the teardown, and the lock stays held one level
    higher than before. *)
Theorem teardown_completes_with_thread_asleep
    (s : PowerProfiler F) (now : F) (port : string) :
  ctl s = CtlReady ->
  bg s = BgSleep \/ bg s = BgCheck ->
  measurement_thread s = true ->
  ppk2 s = Ppk2Obj port ->
  exists s' : PowerProfiler F,
    exec get_samples (teardown_of now (bg s)) s = Some s'
    /\ ctl s' = CtlReady
    /\ bg s' = BgExit
    /\ measurement_thread s' = false
    /\ ppk2 s' = Ppk2Deleted
    /\ measuring s' = false
    /\ measure_lock s' = S (measure_lock s)
    /\ current_measurements s' = current_measurements s
    /\ measurement_stop_time s' = Some now
    /\ in_order
         [EvStopSet; EvDriver CmdStopMeasuring; EvThreadJoined;
          EvDriver (CmdToggleDUTPower false); EvDelPpk2]
         (emitted s s') = true.
Proof.
  destruct s as [ms k st p v buf t0 t1 th fn b cp lg].
  cbn [ctl bg measurement_thread ppk2]. intros -> Hb -> ->.
  destruct fn as [f|].
  - destruct Hb as [-> | ->];
      (eexists; split; [vm_compute; reflexivity|];
       do 8 (split; [reflexivity|]);
       rewrite (@emitted_new_events F _ _
                  [EvDelPpk2; EvRelease (S k);
                   EvDriver (CmdToggleDUTPower false); EvAcquire (S (S k));
                   EvThreadJoined; EvRelease (S k); EvCsvRows buf;
                   EvDriver CmdStopMeasuring; EvStopTime;
                   EvAcquire (S (S k)); EvMeasuring false;
                   EvAcquire (S k); EvStopSet]) by reflexivity;
       vm_compute; reflexivity).
  - destruct Hb as [-> | ->];
      (eexists; split; [vm_compute; reflexivity|];
       do 8 (split; [reflexivity|]);
       rewrite (@emitted_new_events F _ _
                  [EvDelPpk2; EvRelease (S k);
                   EvDriver (CmdToggleDUTPower false); EvAcquire (S (S k));
                   EvThreadJoined; EvRelease (S k);
                   EvDriver CmdStopMeasuring; EvStopTime;
                   EvAcquire (S (S k)); EvMeasuring false;
                   EvAcquire (S k); EvStopSet]) by reflexivity;
       vm_compute; reflexivity).
Qed.

End TeardownRuns.

(** ** When the constructor returns *)

Section ConstructionReturns.

Context {F : Type}.

(** X16.  The constructor returns an object exactly when it settles on a
    port (the one given, or the only one discovered), [PPK2_API] opens it,
    [get_modifiers] returns something true, and the rest runs through:
    the mode and the voltage commands return, the thread starts, and the
    file, when one is named, can be created.  The object then holds the
    driver of that port and is ready for a window: not measuring, the
    lock held once, the thread started. *)
Theorem construction_returns_exactly_when_verified
    (w : Ppk2World) (serial_port : option string) (source_voltage : Z)
    (file : option string) (source_meter : bool) :
  (forall s : PowerProfiler F,
     init w serial_port source_voltage file source_meter = Return s ->
     exists p : string,
       resolved_port w serial_port = Some p
       /\ open_port w p = None
       /\ get_modifiers w p = Return true
       /\ set_up_returns w p source_voltage file source_meter
       /\ ppk2 s = Ppk2Obj p
       /\ measurement_thread s = true
       /\ ready s)
  /\ (forall p : string,
        resolved_port w serial_port = Some p ->
        open_port w p = None ->
        get_modifiers w p = Return true ->
        set_up_returns w p source_voltage file source_meter ->
        exists s : PowerProfiler F,
          init w serial_port source_voltage file source_meter = Return s
          /\ ppk2 s = Ppk2Obj p).
Proof.
  split.
  - intros s H.
    destruct (init_returns _ _ _ _ _ H) as (p & Hp & Ho & Hg & Hs & ->).
    exists p. unfold ready. cbn.
    repeat (split; [first [reflexivity | assumption]|]).
    exists p. reflexivity.
  - intros p Hp Ho Hg (H1 & H2 & H3 & H4).
    exists (new_object p source_voltage file source_meter).
    split; [|reflexivity]. unfold init.
    rewrite (init_self_opened w serial_port source_voltage file
               source_meter Hp Ho), Hg, H1, H2, H3.
    destruct file as [name|]; [rewrite H4|]; reflexivity.
Qed.

End ConstructionReturns.

(** ** The properties of the rest of the module, on the bench *)

(** Five samples in windows of two: two full chunks and one of a single
    sample, three averages. *)
Lemma average_samples_windows_witness :
  exists chunks : list (list Z),
    chunks_of five_samples 2 = Return chunks
    /\ List.concat chunks = five_samples
    /\ full_but_last (Z.to_nat 2) chunks
    /\ Z.of_nat (List.length chunks) = ((py_len five_samples + 2 - 1) / 2)%Z
    /\ @_average_samples Q _ five_samples 2 = Return (map mean chunks).
Proof.
  apply (@average_samples_windows Q _ five_samples 2%Z). reflexivity.
Defined.

Lemma average_samples_bad_window_witness :
  @_average_samples Q _ five_samples (-2) = Return [].
Proof.
  apply (@average_samples_bad_window Q _ five_samples (-2)%Z).
  discriminate.
Defined.

Lemma average_samples_one_window_witness :
  @_average_samples Q _ five_samples 8 = Return [mean five_samples].
Proof.
  apply (@average_samples_one_window Q _ five_samples 8%Z);
    discriminate.
Defined.

Lemma reads_change_nothing_witness :
  with_log_of (measured Q)
    (snd (run_call GetAveragePowerConsumption (measured Q)))
  = measured Q.
Proof.
  apply (@reads_change_nothing Q _ GetAveragePowerConsumption (measured Q)).
  reflexivity.
Defined.

Lemma release_never_fails_witness :
  (measuring (measured Q) = false -> (1 <= measure_lock (measured Q))%nat)
  /\ fst (run_call (StartMeasuring 20) (measured Q)) <> Raise RuntimeError.
Proof.
  apply (@release_never_fails Q _ Bench.get_samples Bench.world None 3300%Z
           None true (Bench.idle Q) (measured Q) (Bench.window Q)
           (StartMeasuring 20));
    vm_compute; reflexivity.
Defined.

Lemma switches_never_return_false_witness :
  (fst (disable_power (measured Q)) = Return true
   /\ emitted (measured Q) (snd (disable_power (measured Q)))
      = [EvAcquire (S (measure_lock (measured Q)));
         EvDriver (CmdToggleDUTPower false);
         EvRelease (measure_lock (measured Q))]
   /\ with_log_of (measured Q) (snd (disable_power (measured Q)))
      = measured Q)
  \/ (ppk2 (measured Q) = Ppk2Deleted
      /\ fst (disable_power (measured Q)) = Raise AttributeError).
Proof.
  apply (@switches_never_return_false Q _ Bench.get_samples Bench.world None
           3300%Z None true (Bench.idle Q) (measured Q) (Bench.window Q)
           disable_power (CmdToggleDUTPower false));
    [vm_compute; reflexivity | vm_compute; reflexivity |].
  right. left. reflexivity.
Defined.

Lemma samples_kept_without_start_witness :
  exists s' : PowerProfiler Q,
    exec Bench.get_samples (busy Q) (polled Q) = Some s'
    /\ exists suffix : list Z,
         current_measurements s' = current_measurements (polled Q) ++ suffix.
Proof.
  eexists. split; [vm_compute; reflexivity|].
  apply (@samples_kept_without_start Q _ Bench.get_samples (polled Q) _
           (busy Q));
    vm_compute; reflexivity.
Defined.

Lemma buffer_frozen_after_stop_witness :
  exists s' : PowerProfiler Q,
    exec Bench.get_samples (Controller (StopMeasuring 12) :: quiet Q)
      (polled Q) = Some s'
    /\ current_measurements s' = current_measurements (polled Q)
    /\ measuring s' = false
    /\ (1 <= measure_lock s')%nat
    /\ fst (get_average_current_mA s')
       = Return (spec_average_current_mA (current_measurements (polled Q))).
Proof.
  eexists. split; [vm_compute; reflexivity|].
  apply (@buffer_frozen_after_stop Q _ Bench.get_samples (polled Q) _ 12
           (quiet Q));
    vm_compute; reflexivity.
Defined.

Lemma window_collects_reads_witness :
  exists s' : PowerProfiler Q,
    exec Bench.get_samples (window_of 10 12 two_reads) (Bench.idle Q)
    = Some s'
    /\ current_measurements s'
       = flat_map (decoded Bench.get_samples) two_reads
    /\ measurement_start_time s' = Some 10
    /\ measurement_stop_time s' = Some 12
    /\ ready s'.
Proof.
  apply (@window_collects_reads Q _ Bench.get_samples (Bench.idle Q) 10 12
           two_reads).
  unfold ready. repeat (split; [reflexivity|]).
  eexists. reflexivity.
Defined.

Lemma extremes_are_samples_witness :
  exists lo hi : Z,
    fst (get_min_current_mA (measured Q))
    = Return (num_div (of_int lo) (of_int 1000))
    /\ fst (get_max_current_mA (measured Q))
       = Return (num_div (of_int hi) (of_int 1000))
    /\ In lo (current_measurements (measured Q))
    /\ In hi (current_measurements (measured Q))
    /\ forall y : Z,
         In y (current_measurements (measured Q)) -> (lo <= y <= hi)%Z.
Proof.
  apply (@extremes_are_samples Q _ (measured Q)).
  vm_compute. discriminate.
Defined.

Lemma energy_and_charge_need_both_stamps_witness :
  (fst (get_average_power_consumption_mWh (polled Q)) = Raise TypeError
   /\ with_log_of (polled Q)
        (snd (get_average_power_consumption_mWh (polled Q)))
      = polled Q)
  /\ (fst (get_average_charge_mC (polled Q)) = Raise TypeError
      /\ with_log_of (polled Q) (snd (get_average_charge_mC (polled Q)))
         = polled Q).
Proof.
  apply (@energy_and_charge_need_both_stamps Q _ (polled Q)).
  right. vm_compute. reflexivity.
Defined.

Lemma average_between_extremes_witness :
  exists lo av hi : Q,
    fst (get_min_current_mA (measured Q)) = Return lo
    /\ fst (get_average_current_mA (measured Q)) = Return av
    /\ fst (get_max_current_mA (measured Q)) = Return hi
    /\ lo <= av /\ av <= hi.
Proof.
  apply (@average_between_extremes (measured Q)).
  vm_compute. discriminate.
Defined.

Lemma duration_is_stale_after_restart_witness :
  exists d : Q,
    fst (get_measurement_duration_s
           (snd (start_measuring 20 (measured Q)))) = Return d
    /\ d == 12 - 20
    /\ d < 0.
Proof.
  apply (@duration_is_stale_after_restart (measured Q) 12 20 0%nat
           "/dev/ttyACM0"%string);
    vm_compute; reflexivity.
Defined.

Lemma teardown_hangs_with_thread_at_gate_witness :
  exists s1 : PowerProfiler Q,
    sys_step Bench.get_samples (Controller (DeletePowerProfiler 12))
      (at_gate Q) = Some s1
    /\ ctl s1 = CtlJoining
    /\ stop s1 = true
    /\ measure_lock s1 = S (measure_lock (at_gate Q))
    /\ ppk2 s1 = Ppk2Obj "/dev/ttyACM0"%string
    /\ forall (l : label Q) (ls : list (label Q)),
         exec Bench.get_samples (l :: ls) s1 = None.
Proof.
  apply (@teardown_hangs_with_thread_at_gate Q _ Bench.get_samples
           (at_gate Q) 12 "/dev/ttyACM0"%string);
    vm_compute; reflexivity.
Defined.

Lemma teardown_completes_with_thread_asleep_witness :
  exists s' : PowerProfiler Q,
    exec Bench.get_samples (teardown_of 12 (bg (polled Q))) (polled Q)
    = Some s'
    /\ ctl s' = CtlReady
    /\ bg s' = BgExit
    /\ measurement_thread s' = false
    /\ ppk2 s' = Ppk2Deleted
    /\ measuring s' = false
    /\ measure_lock s' = S (measure_lock (polled Q))
    /\ current_measurements s' = current_measurements (polled Q)
    /\ measurement_stop_time s' = Some 12
    /\ in_order
         [EvStopSet; EvDriver CmdStopMeasuring; EvThreadJoined;
          EvDriver (CmdToggleDUTPower false); EvDelPpk2]
         (emitted (polled Q) s') = true.
Proof.
  apply (@teardown_completes_with_thread_asleep Q _ Bench.get_samples
           (polled Q) 12 "/dev/ttyACM0"%string);
    [ vm_compute; reflexivity | right; vm_compute; reflexivity
    | vm_compute; reflexivity | vm_compute; reflexivity ].
Defined.

(** ** The rows of the file *)

Section Rows.

Context {F : Type} {num : PyNumber F}.
Variable get_samples : list byte -> list Z.

(** X17.  With a file name, [stop_measuring] appends every sample of the buffer
    to the file, and so does the [stop_measuring] that
    [delete_power_profiler] calls: after a stop and a teardown the file
    holds each sample of the window twice.  The buffer is not emptied in
    between. *)
Theorem stop_then_teardown_writes_rows_twice
    (s : PowerProfiler F) (t now : F) (port file : string) :
  ctl s = CtlReady ->
  bg s = BgSleep \/ bg s = BgCheck ->
  measurement_thread s = true ->
  ppk2 s = Ppk2Obj port ->
  filename s = Some file ->
  exists s1 s' : PowerProfiler F,
    sys_step get_samples (Controller (StopMeasuring t)) s = Some s1
    /\ rows_written (emitted s s1) = current_measurements s
    /\ exec get_samples (teardown_of now (bg s1)) s1 = Some s'
    /\ rows_written (emitted s s')
       = current_measurements s ++ current_measurements s
    /\ ppk2 s' = Ppk2Deleted.
Proof.
  destruct s as [ms k st p v buf t0 t1 th fn b cp lg].
  cbn [ctl bg measurement_thread ppk2 filename current_measurements].
  intros -> Hb -> -> ->.
  destruct Hb as [-> | ->];
    (do 2 eexists; split; [vm_compute; reflexivity|];
     split;
     [ rewrite (@emitted_new_events F _ _
                  [EvRelease (S k); EvCsvRows buf;
                   EvDriver CmdStopMeasuring; EvStopTime;
                   EvAcquire (S (S k)); EvMeasuring false;
                   EvAcquire (S k)]) by reflexivity;
       cbn; apply app_nil_r |];
     split; [vm_compute; reflexivity|];
     split; [|reflexivity];
     rewrite (@emitted_new_events F _ _
                [EvDelPpk2; EvRelease (S (S k));
                 EvDriver (CmdToggleDUTPower false); EvAcquire (S (S (S k)));
                 EvThreadJoined; EvRelease (S (S k)); EvCsvRows buf;
                 EvDriver CmdStopMeasuring; EvStopTime;
                 EvAcquire (S (S (S k))); EvMeasuring false;
                 EvAcquire (S (S k)); EvStopSet;
                 EvRelease (S k); EvCsvRows buf;
                 EvDriver CmdStopMeasuring; EvStopTime;
                 EvAcquire (S (S k)); EvMeasuring false;
                 EvAcquire (S k)]) by reflexivity;
     cbn; rewrite app_nil_r; reflexivity).
Qed.

End Rows.

(** X18.  In exact arithmetic the energy of a window is its charge times the
    source voltage, over 3 600 000: the two aggregates agree on the
    average current and on the duration they use.  On an empty buffer
    both are zero. *)
Theorem energy_is_charge_times_voltage
    (s : PowerProfiler Q) (t0 t1 : Q) :
  measurement_start_time s = Some t0 ->
  measurement_stop_time s = Some t1 ->
  exists e c : Q,
    fst (get_average_power_consumption_mWh s) = Return e
    /\ fst (get_average_charge_mC s) = Return c
    /\ e == c * inject_Z (source_voltage_mV s) / 3600000
    /\ c == spec_average_current_mA (current_measurements s) * (t1 - t0)
    /\ (current_measurements s = [] -> e == 0 /\ c == 0).
Proof.
  intros H0 H1.
  rewrite (get_average_power_consumption_mWh_run s H0 H1),
    (get_average_charge_mC_run s H0 H1).
  cbn [fst]. do 2 eexists.
  split; [reflexivity|]. split; [reflexivity|].
  unfold average_power_mW. cbn [num_mul num_div num_sub of_int PyNumber_Q].
  split; [|split; [reflexivity|]].
  - unfold inject_Z. field.
  - intros ->. unfold spec_average_current_mA. cbn.
    split; unfold inject_Z; field.
Qed.

Lemma stop_then_teardown_writes_rows_twice_witness :
  exists s1 s' : PowerProfiler Q,
    sys_step Bench.get_samples (Controller (StopMeasuring 12)) (recording Q)
    = Some s1
    /\ rows_written (emitted (recording Q) s1)
       = current_measurements (recording Q)
    /\ exec Bench.get_samples (teardown_of 13 (bg s1)) s1 = Some s'
    /\ rows_written (emitted (recording Q) s')
       = current_measurements (recording Q)
         ++ current_measurements (recording Q)
    /\ ppk2 s' = Ppk2Deleted.
Proof.
  apply (@stop_then_teardown_writes_rows_twice Q _ Bench.get_samples
           (recording Q) 12 13 "/dev/ttyACM0"%string "samples.csv"%string);
    [ vm_compute; reflexivity | right; vm_compute; reflexivity
    | vm_compute; reflexivity | vm_compute; reflexivity
    | vm_compute; reflexivity ].
Defined.

Lemma energy_is_charge_times_voltage_witness :
  exists e c : Q,
    fst (get_average_power_consumption_mWh (measured Q)) = Return e
    /\ fst (get_average_charge_mC (measured Q)) = Return c
    /\ e == c * inject_Z (source_voltage_mV (measured Q)) / 3600000
    /\ c == spec_average_current_mA (current_measurements (measured Q))
            * (12 - 10)
    /\ (current_measurements (measured Q) = [] -> e == 0 /\ c == 0).
Proof.
  apply (@energy_is_charge_times_voltage (measured Q) 10 12);
    vm_compute; reflexivity.
Defined.
